(** * saml2alibabacloud: provider registry, prompts and profile configuration

    A shallow embedding of the Go sources
    - package saml2alibabacloud: the provider table [MFAsByProvider] and
      [NewSAMLClient], and the prompts of input.go,
    - package cfg: [IDPAccount], its validation and [ConfigManager],
    - package provider: [ValidateBase],
    followed by the properties of the behavioural specification that
    concern them. *)

From Stdlib Require Import ZArith Ascii DecimalString.
From stdpp Require Import gmap strings list sorting.

Local Open Scope string_scope.

(** ** Go values shared by all packages *)

(** Errors as built by [errors.New], [fmt.Errorf] (without [%w]) and
    [errors.Wrap] of github.com/pkg/errors. *)
Inductive error : Type :=
  | errors_New (msg : string)
  | errors_Wrap (cause : error) (msg : string).

Definition fmt_Errorf (msg : string) : error := errors_New msg.

Global Instance error_eq_dec : EqDecision error.
Proof. solve_decision. Defined.

(** A Go call either returns or panics at run time. *)
Inductive go (A : Type) : Type :=
  | Return (a : A)
  | Panic (msg : string).
Global Arguments Return {A} a.
Global Arguments Panic {A} msg.

(** [sort.Strings]: sorts a slice of strings in increasing byte-wise order.
    The order is total and antisymmetric, so the result is the only sorted
    permutation of the input whatever algorithm the Go runtime uses (lemma
    [sort_Strings_unique] below); merge sort computes it here. *)
Definition sort_Strings (a : list string) : list string :=
  merge_sort String.le a.

(** ** gopkg.in/ini.v1 and the configuration file

    The configuration file is read and written through the third-party package
    gopkg.in/ini.v1 (go.mod pins v1.57.0).  This module describes the part of
    its documented behaviour that [cfg] relies on, after the functions
    [LoadSources], [File.Section], [File.NewSection], [Section.GetKey],
    [Section.ReflectFrom], [Section.MapTo] and [File.SaveTo] of the package and
    its documentation of the [Loose] option and of parent-child sections: a
    file is a set of named sections, a section a set of named keys with a text
    value; the text layout (order, comments, quoting) is left out. *)

Module ini.

Inductive result (A : Type) : Type :=
  | Ok (a : A)
  | Err (e : error).
Global Arguments Ok {A} a.
Global Arguments Err {A} e.

Definition DefaultSection : string := "DEFAULT".

(** Keys by name; sections by name.  A section is referred to by its name. *)
Abbreviation Keys := (gmap string string).
Abbreviation File := (gmap string (gmap string string)).

(** [ini.Empty()]: every file has the default section. *)
Definition Empty : File := {[ DefaultSection := ∅ ]}.

Definition ensure_default (f : File) : File :=
  match f !! DefaultSection with
  | Some _ => f
  | None => <[DefaultSection := ∅]> f
  end.

(** The keys of a section; none for a section that is not there. *)
Definition keys (f : File) (sec : string) : Keys := default ∅ (f !! sec).

(** [File.GetSection]: the empty name stands for the default section. *)
Definition GetSection (f : File) (name : string) : option string :=
  let name := if bool_decide (name = "") then DefaultSection else name in
  match f !! name with
  | Some _ => Some name
  | None => None
  end.

(** [File.NewSection]: an existing section of that name is returned as it is. *)
Definition NewSection (f : File) (name : string) : result (string * File) :=
  if bool_decide (name = "") then Err (errors_New "empty section name")
  else match f !! name with
       | Some _ => Ok (name, f)
       | None => Ok (name, <[name := ∅]> f)
       end.

(** [File.Section]: the section of that name, created when absent.  (The
    creation cannot fail: the name is not empty on that path.) *)
Definition Section_ (f : File) (name : string) : string * File :=
  match GetSection f name with
  | Some sec => (sec, f)
  | None =>
      match NewSection f name with
      | Ok r => r
      | Err _ => (name, f)
      end
  end.

(** Parent sections: the prefixes of a section name that end before a ".",
    the longest first ("a.b.c" has parents "a.b" and "a"). *)
Fixpoint dot_prefixes (done : string) (rest : string) : list string :=
  match rest with
  | EmptyString => []
  | String.String c rest' =>
      (if bool_decide (c = "."%char) then [done] else [])
        ++ dot_prefixes (done +:+ String.String c EmptyString) rest'
  end%list.

Definition parents (name : string) : list string :=
  reverse (dot_prefixes "" name).

(** [Section.GetKey]: a key that the section does not have is looked up in
    its parent sections, nearest first: the library cuts the section name at
    its last "." and asks [GetSection] for the section of that prefix, until a
    section that has the key is found or no "." is left ("if the key is not
    found in the child section, the library tries again on its parent
    section").  The result is the section that owns the key, and the raw
    value. *)
Fixpoint lookup_chain (f : File) (key : string) (chain : list string)
  : option (string * string) :=
  match chain with
  | [] => None
  | name :: chain' =>
      match GetSection f name with
      | Some sec =>
          match keys f sec !! key with
          | Some v => Some (sec, v)
          | None => lookup_chain f key chain'
          end
      | None => lookup_chain f key chain'
      end
  end.

Definition GetKey (f : File) (sec key : string) : option (string * string) :=
  lookup_chain f key (sec :: parents sec).

(** [Key.SetValue] on a key of section [sec] (the key is created if new). *)
Definition SetValue (f : File) (sec key v : string) : File :=
  <[sec := <[key := v]> (keys f sec)]> f.

(** *** Struct reflection: [ReflectFrom] and [MapTo] *)

Inductive value : Type :=
  | VString (s : string)
  | VBool (b : bool)
  | VInt (n : Z).

(** A struct field with an [ini:"tag"] or [ini:"tag,omitempty"] annotation. *)
Record field (A : Type) : Type := mkField {
  tag : string;
  omitempty : bool;
  get : A → value;
  set : value → A → A
}.
Global Arguments tag {A} _.
Global Arguments omitempty {A} _.
Global Arguments get {A} _ _.
Global Arguments set {A} _ _ _.

Definition isEmptyValue (v : value) : bool :=
  match v with
  | VString s => bool_decide (s = "")
  | VBool b => negb b
  | VInt n => bool_decide (n = 0%Z)
  end.

(** [fmt.Sprint] of a field. *)
Definition Sprint (v : value) : string :=
  match v with
  | VString s => s
  | VBool true => "true"
  | VBool false => "false"
  | VInt n => NilZero.string_of_int (Z.to_int n)
  end.

(** How [MapTo] converts the text of a key to a field of each Go type.  The
    conversions are the library's; [None] is a text that does not convert, on
    which [MapTo] (not strict) leaves the field as it is. *)
Class Conv : Type := {
  conv_string : string → option string;
  conv_bool : string → option bool;
  conv_int : string → option Z
}.

(** A plain instance: empty text leaves a string field alone, booleans are
    "true" and "false", integers are not read. *)
Definition plain_Conv : Conv := {|
  conv_string s := if bool_decide (s = "") then None else Some s;
  conv_bool s :=
    if bool_decide (s = "true") then Some true
    else if bool_decide (s = "false") then Some false else None;
  conv_int _ := None
|}.

Definition setWithProperType `{!Conv} {A} (fld : field A) (raw : string)
    (a : A) : A :=
  match get fld a with
  | VString _ =>
      match conv_string raw with Some s => set fld (VString s) a | None => a end
  | VBool _ =>
      match conv_bool raw with Some b => set fld (VBool b) a | None => a end
  | VInt _ =>
      match conv_int raw with Some n => set fld (VInt n) a | None => a end
  end.

(** [Section.ReflectFrom]: for every field that is not skipped by [omitempty],
    the library takes the key [GetKey] finds for the tag, makes a new key of
    the section when [GetKey] finds none, and sets the value of that key. *)
Definition reflect_field {A} (a : A) (sec : string) (f : File)
    (fld : field A) : File :=
  let v := get fld a in
  if omitempty fld && isEmptyValue v then f
  else match GetKey f sec (tag fld) with
       | Some (owner, _) => SetValue f owner (tag fld) (Sprint v)
       | None => SetValue f sec (tag fld) (Sprint v)
       end.

Definition ReflectFrom {A} (fields : list (field A)) (f : File) (sec : string)
    (a : A) : option error * File :=
  (None, foldl (reflect_field a sec) f fields).

(** [Section.MapTo]: every field whose key [GetKey] finds is set from it. *)
Definition map_field `{!Conv} {A} (f : File) (sec : string) (a : A)
    (fld : field A) : A :=
  match GetKey f sec (tag fld) with
  | Some (_, raw) => setWithProperType fld raw a
  | None => a
  end.

Definition MapTo `{!Conv} {A} (fields : list (field A)) (f : File)
    (sec : string) (a : A) : option error * A :=
  (None, foldl (map_field f sec) a fields).

(** *** Files on disk *)

(** What a path holds: the sections the parser reads from it, and the error of
    the parser when it rejects the text (a line that is neither a section
    header nor a key with a value, an unclosed section header, ...). *)
Record on_disk : Type := mkOnDisk {
  parsed : File;
  malformed : option error
}.

(** The paths that hold a file, and the paths that cannot be written with the
    error writing gives. *)
Record filesystem : Type := mkFilesystem {
  files : gmap string on_disk;
  write_error : gmap string error
}.

(** [ini.LoadSources(ini.LoadOptions{Loose: true}, path)]: [Loose] ignores a
    file that does not exist; an error of the parser is returned. *)
Definition LoadSources (path : string) (fs : filesystem) : result File :=
  match files fs !! path with
  | None => Ok Empty
  | Some d =>
      match malformed d with
      | Some e => Err e
      | None => Ok (ensure_default (parsed d))
      end
  end.

(** [File.SaveTo]: writes the whole file. *)
Definition SaveTo (path : string) (f : File) (fs : filesystem)
  : option error * filesystem :=
  match write_error fs !! path with
  | Some e => (Some e, fs)
  | None =>
      (None, mkFilesystem (<[path := mkOnDisk f None]> (files fs))
                          (write_error fs))
  end.

End ini.

(** ** Package cfg *)

Module cfg.

Definition DefaultConfigPath : string := "~/.saml2alibabacloud".
Definition DefaultAlibabaCloudURN : string := "urn:alibaba:cloudcomputing".
Definition DefaultSessionDuration : Z := 3600.
Definition DefaultProfile : string := "saml".

(** Go's [int] fields are read as integers; no arithmetic is done on them. *)
Record IDPAccount : Type := mkIDPAccount {
  AppID : string;
  URL : string;
  Username : string;
  Provider : string;
  MFA : string;
  SkipVerify : bool;
  Timeout : Z;
  AlibabaCloudURN : string;
  SessionDuration : Z;
  Profile : string;
  ResourceID : string;
  Subdomain : string;
  RoleARN : string;
  Region : string;
  HTTPAttemptsCount : string;
  HTTPRetryDelay : string;
  BrowserType : string;
  BrowserExecutablePath : string;
  BrowserAutoFill : bool;
  DownloadBrowser : bool;
  BrowserDriverDir : string;
  Headless : bool;
  Prompter : string
}.

(** The zero value of the struct. *)
Definition zero : IDPAccount :=
  mkIDPAccount "" "" "" "" "" false 0 "" 0 "" "" "" "" "" "" "" "" "" false
               false "" false "".

Definition NewIDPAccount : IDPAccount :=
  mkIDPAccount "" "" "" "" "" false 0 DefaultAlibabaCloudURN
               DefaultSessionDuration DefaultProfile "" "" "" "" "" "" "" ""
               false false "" false "".

(** Field by field updates of the struct. *)
Definition with_AppID (v : string) (ia : IDPAccount) : IDPAccount :=
  mkIDPAccount
    v (URL ia) (Username ia) (Provider ia) (MFA ia) (SkipVerify ia)
    (Timeout ia) (AlibabaCloudURN ia) (SessionDuration ia) (Profile ia)
    (ResourceID ia) (Subdomain ia) (RoleARN ia) (Region ia)
    (HTTPAttemptsCount ia) (HTTPRetryDelay ia) (BrowserType ia)
    (BrowserExecutablePath ia) (BrowserAutoFill ia) (DownloadBrowser ia)
    (BrowserDriverDir ia) (Headless ia) (Prompter ia).
Definition with_URL (v : string) (ia : IDPAccount) : IDPAccount :=
  mkIDPAccount
    (AppID ia) v (Username ia) (Provider ia) (MFA ia) (SkipVerify ia)
    (Timeout ia) (AlibabaCloudURN ia) (SessionDuration ia) (Profile ia)
    (ResourceID ia) (Subdomain ia) (RoleARN ia) (Region ia)
    (HTTPAttemptsCount ia) (HTTPRetryDelay ia) (BrowserType ia)
    (BrowserExecutablePath ia) (BrowserAutoFill ia) (DownloadBrowser ia)
    (BrowserDriverDir ia) (Headless ia) (Prompter ia).
Definition with_Username (v : string) (ia : IDPAccount) : IDPAccount :=
  mkIDPAccount
    (AppID ia) (URL ia) v (Provider ia) (MFA ia) (SkipVerify ia) (Timeout ia)
    (AlibabaCloudURN ia) (SessionDuration ia) (Profile ia) (ResourceID ia)
    (Subdomain ia) (RoleARN ia) (Region ia) (HTTPAttemptsCount ia)
    (HTTPRetryDelay ia) (BrowserType ia) (BrowserExecutablePath ia)
    (BrowserAutoFill ia) (DownloadBrowser ia) (BrowserDriverDir ia)
    (Headless ia) (Prompter ia).
Definition with_Provider (v : string) (ia : IDPAccount) : IDPAccount :=
  mkIDPAccount
    (AppID ia) (URL ia) (Username ia) v (MFA ia) (SkipVerify ia) (Timeout ia)
    (AlibabaCloudURN ia) (SessionDuration ia) (Profile ia) (ResourceID ia)
    (Subdomain ia) (RoleARN ia) (Region ia) (HTTPAttemptsCount ia)
    (HTTPRetryDelay ia) (BrowserType ia) (BrowserExecutablePath ia)
    (BrowserAutoFill ia) (DownloadBrowser ia) (BrowserDriverDir ia)
    (Headless ia) (Prompter ia).
Definition with_MFA (v : string) (ia : IDPAccount) : IDPAccount :=
  mkIDPAccount
    (AppID ia) (URL ia) (Username ia) (Provider ia) v (SkipVerify ia)
    (Timeout ia) (AlibabaCloudURN ia) (SessionDuration ia) (Profile ia)
    (ResourceID ia) (Subdomain ia) (RoleARN ia) (Region ia)
    (HTTPAttemptsCount ia) (HTTPRetryDelay ia) (BrowserType ia)
    (BrowserExecutablePath ia) (BrowserAutoFill ia) (DownloadBrowser ia)
    (BrowserDriverDir ia) (Headless ia) (Prompter ia).
Definition with_SkipVerify (v : bool) (ia : IDPAccount) : IDPAccount :=
  mkIDPAccount
    (AppID ia) (URL ia) (Username ia) (Provider ia) (MFA ia) v (Timeout ia)
    (AlibabaCloudURN ia) (SessionDuration ia) (Profile ia) (ResourceID ia)
    (Subdomain ia) (RoleARN ia) (Region ia) (HTTPAttemptsCount ia)
    (HTTPRetryDelay ia) (BrowserType ia) (BrowserExecutablePath ia)
    (BrowserAutoFill ia) (DownloadBrowser ia) (BrowserDriverDir ia)
    (Headless ia) (Prompter ia).
Definition with_Timeout (v : Z) (ia : IDPAccount) : IDPAccount :=
  mkIDPAccount
    (AppID ia) (URL ia) (Username ia) (Provider ia) (MFA ia) (SkipVerify ia)
    v (AlibabaCloudURN ia) (SessionDuration ia) (Profile ia) (ResourceID ia)
    (Subdomain ia) (RoleARN ia) (Region ia) (HTTPAttemptsCount ia)
    (HTTPRetryDelay ia) (BrowserType ia) (BrowserExecutablePath ia)
    (BrowserAutoFill ia) (DownloadBrowser ia) (BrowserDriverDir ia)
    (Headless ia) (Prompter ia).
Definition with_AlibabaCloudURN (v : string) (ia : IDPAccount) : IDPAccount :=
  mkIDPAccount
    (AppID ia) (URL ia) (Username ia) (Provider ia) (MFA ia) (SkipVerify ia)
    (Timeout ia) v (SessionDuration ia) (Profile ia) (ResourceID ia)
    (Subdomain ia) (RoleARN ia) (Region ia) (HTTPAttemptsCount ia)
    (HTTPRetryDelay ia) (BrowserType ia) (BrowserExecutablePath ia)
    (BrowserAutoFill ia) (DownloadBrowser ia) (BrowserDriverDir ia)
    (Headless ia) (Prompter ia).
Definition with_SessionDuration (v : Z) (ia : IDPAccount) : IDPAccount :=
  mkIDPAccount
    (AppID ia) (URL ia) (Username ia) (Provider ia) (MFA ia) (SkipVerify ia)
    (Timeout ia) (AlibabaCloudURN ia) v (Profile ia) (ResourceID ia)
    (Subdomain ia) (RoleARN ia) (Region ia) (HTTPAttemptsCount ia)
    (HTTPRetryDelay ia) (BrowserType ia) (BrowserExecutablePath ia)
    (BrowserAutoFill ia) (DownloadBrowser ia) (BrowserDriverDir ia)
    (Headless ia) (Prompter ia).
Definition with_Profile (v : string) (ia : IDPAccount) : IDPAccount :=
  mkIDPAccount
    (AppID ia) (URL ia) (Username ia) (Provider ia) (MFA ia) (SkipVerify ia)
    (Timeout ia) (AlibabaCloudURN ia) (SessionDuration ia) v (ResourceID ia)
    (Subdomain ia) (RoleARN ia) (Region ia) (HTTPAttemptsCount ia)
    (HTTPRetryDelay ia) (BrowserType ia) (BrowserExecutablePath ia)
    (BrowserAutoFill ia) (DownloadBrowser ia) (BrowserDriverDir ia)
    (Headless ia) (Prompter ia).
Definition with_ResourceID (v : string) (ia : IDPAccount) : IDPAccount :=
  mkIDPAccount
    (AppID ia) (URL ia) (Username ia) (Provider ia) (MFA ia) (SkipVerify ia)
    (Timeout ia) (AlibabaCloudURN ia) (SessionDuration ia) (Profile ia) v
    (Subdomain ia) (RoleARN ia) (Region ia) (HTTPAttemptsCount ia)
    (HTTPRetryDelay ia) (BrowserType ia) (BrowserExecutablePath ia)
    (BrowserAutoFill ia) (DownloadBrowser ia) (BrowserDriverDir ia)
    (Headless ia) (Prompter ia).
Definition with_Subdomain (v : string) (ia : IDPAccount) : IDPAccount :=
  mkIDPAccount
    (AppID ia) (URL ia) (Username ia) (Provider ia) (MFA ia) (SkipVerify ia)
    (Timeout ia) (AlibabaCloudURN ia) (SessionDuration ia) (Profile ia)
    (ResourceID ia) v (RoleARN ia) (Region ia) (HTTPAttemptsCount ia)
    (HTTPRetryDelay ia) (BrowserType ia) (BrowserExecutablePath ia)
    (BrowserAutoFill ia) (DownloadBrowser ia) (BrowserDriverDir ia)
    (Headless ia) (Prompter ia).
Definition with_RoleARN (v : string) (ia : IDPAccount) : IDPAccount :=
  mkIDPAccount
    (AppID ia) (URL ia) (Username ia) (Provider ia) (MFA ia) (SkipVerify ia)
    (Timeout ia) (AlibabaCloudURN ia) (SessionDuration ia) (Profile ia)
    (ResourceID ia) (Subdomain ia) v (Region ia) (HTTPAttemptsCount ia)
    (HTTPRetryDelay ia) (BrowserType ia) (BrowserExecutablePath ia)
    (BrowserAutoFill ia) (DownloadBrowser ia) (BrowserDriverDir ia)
    (Headless ia) (Prompter ia).
Definition with_Region (v : string) (ia : IDPAccount) : IDPAccount :=
  mkIDPAccount
    (AppID ia) (URL ia) (Username ia) (Provider ia) (MFA ia) (SkipVerify ia)
    (Timeout ia) (AlibabaCloudURN ia) (SessionDuration ia) (Profile ia)
    (ResourceID ia) (Subdomain ia) (RoleARN ia) v (HTTPAttemptsCount ia)
    (HTTPRetryDelay ia) (BrowserType ia) (BrowserExecutablePath ia)
    (BrowserAutoFill ia) (DownloadBrowser ia) (BrowserDriverDir ia)
    (Headless ia) (Prompter ia).
Definition with_HTTPAttemptsCount (v : string) (ia : IDPAccount) : IDPAccount :=
  mkIDPAccount
    (AppID ia) (URL ia) (Username ia) (Provider ia) (MFA ia) (SkipVerify ia)
    (Timeout ia) (AlibabaCloudURN ia) (SessionDuration ia) (Profile ia)
    (ResourceID ia) (Subdomain ia) (RoleARN ia) (Region ia) v
    (HTTPRetryDelay ia) (BrowserType ia) (BrowserExecutablePath ia)
    (BrowserAutoFill ia) (DownloadBrowser ia) (BrowserDriverDir ia)
    (Headless ia) (Prompter ia).
Definition with_HTTPRetryDelay (v : string) (ia : IDPAccount) : IDPAccount :=
  mkIDPAccount
    (AppID ia) (URL ia) (Username ia) (Provider ia) (MFA ia) (SkipVerify ia)
    (Timeout ia) (AlibabaCloudURN ia) (SessionDuration ia) (Profile ia)
    (ResourceID ia) (Subdomain ia) (RoleARN ia) (Region ia)
    (HTTPAttemptsCount ia) v (BrowserType ia) (BrowserExecutablePath ia)
    (BrowserAutoFill ia) (DownloadBrowser ia) (BrowserDriverDir ia)
    (Headless ia) (Prompter ia).
Definition with_BrowserType (v : string) (ia : IDPAccount) : IDPAccount :=
  mkIDPAccount
    (AppID ia) (URL ia) (Username ia) (Provider ia) (MFA ia) (SkipVerify ia)
    (Timeout ia) (AlibabaCloudURN ia) (SessionDuration ia) (Profile ia)
    (ResourceID ia) (Subdomain ia) (RoleARN ia) (Region ia)
    (HTTPAttemptsCount ia) (HTTPRetryDelay ia) v (BrowserExecutablePath ia)
    (BrowserAutoFill ia) (DownloadBrowser ia) (BrowserDriverDir ia)
    (Headless ia) (Prompter ia).
Definition with_BrowserExecutablePath (v : string) (ia : IDPAccount) : IDPAccount :=
  mkIDPAccount
    (AppID ia) (URL ia) (Username ia) (Provider ia) (MFA ia) (SkipVerify ia)
    (Timeout ia) (AlibabaCloudURN ia) (SessionDuration ia) (Profile ia)
    (ResourceID ia) (Subdomain ia) (RoleARN ia) (Region ia)
    (HTTPAttemptsCount ia) (HTTPRetryDelay ia) (BrowserType ia) v
    (BrowserAutoFill ia) (DownloadBrowser ia) (BrowserDriverDir ia)
    (Headless ia) (Prompter ia).
Definition with_BrowserAutoFill (v : bool) (ia : IDPAccount) : IDPAccount :=
  mkIDPAccount
    (AppID ia) (URL ia) (Username ia) (Provider ia) (MFA ia) (SkipVerify ia)
    (Timeout ia) (AlibabaCloudURN ia) (SessionDuration ia) (Profile ia)
    (ResourceID ia) (Subdomain ia) (RoleARN ia) (Region ia)
    (HTTPAttemptsCount ia) (HTTPRetryDelay ia) (BrowserType ia)
    (BrowserExecutablePath ia) v (DownloadBrowser ia) (BrowserDriverDir ia)
    (Headless ia) (Prompter ia).
Definition with_DownloadBrowser (v : bool) (ia : IDPAccount) : IDPAccount :=
  mkIDPAccount
    (AppID ia) (URL ia) (Username ia) (Provider ia) (MFA ia) (SkipVerify ia)
    (Timeout ia) (AlibabaCloudURN ia) (SessionDuration ia) (Profile ia)
    (ResourceID ia) (Subdomain ia) (RoleARN ia) (Region ia)
    (HTTPAttemptsCount ia) (HTTPRetryDelay ia) (BrowserType ia)
    (BrowserExecutablePath ia) (BrowserAutoFill ia) v (BrowserDriverDir ia)
    (Headless ia) (Prompter ia).
Definition with_BrowserDriverDir (v : string) (ia : IDPAccount) : IDPAccount :=
  mkIDPAccount
    (AppID ia) (URL ia) (Username ia) (Provider ia) (MFA ia) (SkipVerify ia)
    (Timeout ia) (AlibabaCloudURN ia) (SessionDuration ia) (Profile ia)
    (ResourceID ia) (Subdomain ia) (RoleARN ia) (Region ia)
    (HTTPAttemptsCount ia) (HTTPRetryDelay ia) (BrowserType ia)
    (BrowserExecutablePath ia) (BrowserAutoFill ia) (DownloadBrowser ia) v
    (Headless ia) (Prompter ia).
Definition with_Headless (v : bool) (ia : IDPAccount) : IDPAccount :=
  mkIDPAccount
    (AppID ia) (URL ia) (Username ia) (Provider ia) (MFA ia) (SkipVerify ia)
    (Timeout ia) (AlibabaCloudURN ia) (SessionDuration ia) (Profile ia)
    (ResourceID ia) (Subdomain ia) (RoleARN ia) (Region ia)
    (HTTPAttemptsCount ia) (HTTPRetryDelay ia) (BrowserType ia)
    (BrowserExecutablePath ia) (BrowserAutoFill ia) (DownloadBrowser ia)
    (BrowserDriverDir ia) v (Prompter ia).
Definition with_Prompter (v : string) (ia : IDPAccount) : IDPAccount :=
  mkIDPAccount
    (AppID ia) (URL ia) (Username ia) (Provider ia) (MFA ia) (SkipVerify ia)
    (Timeout ia) (AlibabaCloudURN ia) (SessionDuration ia) (Profile ia)
    (ResourceID ia) (Subdomain ia) (RoleARN ia) (Region ia)
    (HTTPAttemptsCount ia) (HTTPRetryDelay ia) (BrowserType ia)
    (BrowserExecutablePath ia) (BrowserAutoFill ia) (DownloadBrowser ia)
    (BrowserDriverDir ia) (Headless ia) v.

(** The [ini] tags of the struct, in the order of its declaration. *)
Definition string_field (tag : string) (omitempty : bool)
    (get : IDPAccount → string) (set : string → IDPAccount → IDPAccount)
  : ini.field IDPAccount :=
  ini.mkField _ tag omitempty (λ ia, ini.VString (get ia))
    (λ v ia, match v with ini.VString s => set s ia | _ => ia end).
Definition bool_field (tag : string) (omitempty : bool)
    (get : IDPAccount → bool) (set : bool → IDPAccount → IDPAccount)
  : ini.field IDPAccount :=
  ini.mkField _ tag omitempty (λ ia, ini.VBool (get ia))
    (λ v ia, match v with ini.VBool b => set b ia | _ => ia end).
Definition int_field (tag : string) (omitempty : bool)
    (get : IDPAccount → Z) (set : Z → IDPAccount → IDPAccount)
  : ini.field IDPAccount :=
  ini.mkField _ tag omitempty (λ ia, ini.VInt (get ia))
    (λ v ia, match v with ini.VInt n => set n ia | _ => ia end).

Definition fields : list (ini.field IDPAccount) :=
  [ string_field "app_id" false AppID with_AppID;
    string_field "url" false URL with_URL;
    string_field "username" false Username with_Username;
    string_field "provider" false Provider with_Provider;
    string_field "mfa" false MFA with_MFA;
    bool_field "skip_verify" false SkipVerify with_SkipVerify;
    int_field "timeout" false Timeout with_Timeout;
    string_field "alibabacloud_urn" false AlibabaCloudURN with_AlibabaCloudURN;
    int_field "alibabacloud_session_duration" false SessionDuration with_SessionDuration;
    string_field "alibabacloud_profile" false Profile with_Profile;
    string_field "resource_id" false ResourceID with_ResourceID;
    string_field "subdomain" false Subdomain with_Subdomain;
    string_field "role_arn" false RoleARN with_RoleARN;
    string_field "region" false Region with_Region;
    string_field "http_attempts_count" false HTTPAttemptsCount with_HTTPAttemptsCount;
    string_field "http_retry_delay" false HTTPRetryDelay with_HTTPRetryDelay;
    string_field "browser_type" true BrowserType with_BrowserType;
    string_field "browser_executable_path" true BrowserExecutablePath with_BrowserExecutablePath;
    bool_field "browser_autofill" true BrowserAutoFill with_BrowserAutoFill;
    bool_field "download_browser_driver" false DownloadBrowser with_DownloadBrowser;
    string_field "browser_driver_dir" true BrowserDriverDir with_BrowserDriverDir;
    bool_field "headless" false Headless with_Headless;
    string_field "prompter" false Prompter with_Prompter ].

(** [url.Parse] of the Go library net/url: the error it returns, if any. *)
Class NetURL : Type := url_Parse : string → option error.

(** An instance for examples: [url.Parse] rejects a URL with a control
    character (here the line feed) and accepts the others. *)
Definition no_newline_URL : NetURL :=
  λ rawURL,
    if bool_decide ("010"%char ∈ String.list_ascii_of_string rawURL)
    then Some (errors_New "net/url: invalid control character in URL")
    else None.

(** The [switch ia.Provider] at the head of [Validate]. *)
Definition validate_provider_fields (ia : IDPAccount) : option error :=
  if bool_decide (Provider ia = "OneLogin") then
    if bool_decide (AppID ia = "") then
      Some (errors_New "app ID empty in idp account")
    else if bool_decide (Subdomain ia = "") then
      Some (errors_New "subdomain empty in idp account")
    else None
  else if bool_decide (Provider ia = "F5APM") then
    if bool_decide (ResourceID ia = "") then
      Some (errors_New "Resource ID empty in idp account")
    else None
  else if bool_decide (Provider ia = "AzureAD") then
    if bool_decide (AppID ia = "") then
      Some (errors_New "app ID empty in idp account")
    else None
  else None.

Definition Validate `{!NetURL} (ia : IDPAccount) : option error :=
  match validate_provider_fields ia with
  | Some err => Some err
  | None =>
      if bool_decide (URL ia = "") then
        Some (errors_New "URL empty in idp account")
      else match url_Parse (URL ia) with
      | Some _ => Some (errors_New "URL parse failed")
      | None =>
          if bool_decide (Provider ia = "") then
            Some (errors_New "Provider empty in idp account")
          else if bool_decide (MFA ia = "") then
            Some (errors_New "MFA empty in idp account")
          else if bool_decide (Profile ia = "") then
            Some (errors_New "Profile empty in idp account")
          else None
      end
  end.

Record ConfigManager : Type := mkConfigManager { configPath : string }.

(** [SaveIDPAccount]: the error returned and the file system afterwards. *)
Definition SaveIDPAccount `{!NetURL} (cm : ConfigManager)
    (idpAccountName : string) (account : IDPAccount) (fs : ini.filesystem)
  : option error * ini.filesystem :=
  match Validate account with
  | Some err => (Some (errors_Wrap err "Account validation failed"), fs)
  | None =>
  match ini.LoadSources (configPath cm) fs with
  | ini.Err err =>
      (Some (errors_Wrap err "Unable to load configuration file"), fs)
  | ini.Ok cfg =>
  match ini.NewSection cfg idpAccountName with
  | ini.Err err =>
      (Some (errors_Wrap err
               "Unable to build a new section in configuration file"), fs)
  | ini.Ok (newSec, cfg) =>
  match ini.ReflectFrom fields cfg newSec account with
  | (Some err, _) =>
      (Some (errors_Wrap err "Unable to save account to configuration file"),
       fs)
  | (None, cfg) =>
  match ini.SaveTo (configPath cm) cfg fs with
  | (Some err, fs) =>
      (Some (errors_Wrap err "Failed to save configuration file"), fs)
  | (None, fs) => (None, fs)
  end end end end end.

Definition readAccount `{!ini.Conv} (idpAccountName : string) (cfg : ini.File)
  : ini.result IDPAccount :=
  let account := NewIDPAccount in
  let '(sec, cfg) := ini.Section_ cfg idpAccountName in
  match ini.MapTo fields cfg sec account with
  | (Some err, _) => ini.Err (errors_Wrap err "Unable to map account")
  | (None, account) => ini.Ok account
  end.

(** [LoadIDPAccount] only reads the file system. *)
Definition LoadIDPAccount `{!ini.Conv} (cm : ConfigManager)
    (idpAccountName : string) (fs : ini.filesystem) : ini.result IDPAccount :=
  match ini.LoadSources (configPath cm) fs with
  | ini.Err err => ini.Err (errors_Wrap err "Unable to load configuration file")
  | ini.Ok cfg =>
      match readAccount idpAccountName cfg with
      | ini.Err err => ini.Err (errors_Wrap err "Unable to read idp account")
      | ini.Ok account => ini.Ok account
      end
  end.

End cfg.

(** ** Package saml2alibabacloud: the provider table and [NewSAMLClient] *)

Module saml2alibabacloud.
Import cfg.

(** [type ProviderList map[string][]string] *)
Abbreviation ProviderList := (gmap string (list string)).

(** The table as the program text initialises it. *)
Definition MFAsByProvider : ProviderList :=
  list_to_map
    [ ("AzureAD", ["Auto"; "PhoneAppOTP"; "PhoneAppNotification"; "OneWaySMS"]);
      ("ADFS", ["Auto"; "VIP"; "Azure"]);
      ("ADFS2", ["Auto"; "RSA"]);
      ("Ping", ["Auto"]);
      ("PingOne", ["Auto"]);
      ("JumpCloud", ["Auto"]);
      ("Okta", ["Auto"; "PUSH"; "DUO"; "SMS"; "TOTP"; "OKTA"; "FIDO";
                "YUBICO TOKEN:HARDWARE"]);
      ("OneLogin", ["Auto"; "OLP"; "SMS"; "TOTP"; "YUBIKEY"]);
      ("KeyCloak", ["Auto"]);
      ("GoogleApps", ["Auto"]);
      ("Shibboleth", ["Auto"]);
      ("F5APM", ["Auto"]);
      ("Akamai", ["Auto"; "DUO"; "SMS"; "EMAIL"; "TOTP"]);
      ("ShibbolethECP", ["auto"; "phone"; "push"; "passcode"]);
      ("NetIQ", ["Auto"; "Privileged"]);
      ("Custom", ["Auto"]);
      ("Browser", ["Auto"]) ].

(** [Names]: a fresh slice of the keys, sorted. *)
Definition Names (mfbp : ProviderList) : list string :=
  sort_Strings (map_to_list mfbp).*1.

(** [Mfas]: [mfas := mfbp[provider]] copies the slice header only, so
    [sort.Strings(mfas)] reorders the array the table entry points to.  The
    table after the call is returned next to the result.  For an absent key the
    slice is nil, sorting it does nothing and no entry is added. *)
Definition Mfas (provider : string) (mfbp : ProviderList)
  : list string * ProviderList :=
  match mfbp !! provider with
  | Some mfas =>
      let sorted := sort_Strings mfas in
      (sorted, <[provider := sorted]> mfbp)
  | None => ([], mfbp)
  end.

Fixpoint stringInSlice (a : string) (list : list string) : bool :=
  match list with
  | [] => false
  | b :: rest => if bool_decide (b = a) then true else stringInSlice a rest
  end.

(** [invalidMFA] reads the package variable [MFAsByProvider]; its current
    value is the state threaded through. *)
Definition invalidMFA (provider mfa : string) (tbl : ProviderList)
  : bool * ProviderList :=
  let '(supportedMfas, tbl') := Mfas provider tbl in
  (negb (stringInSlice mfa supportedMfas), tbl').

(** The provider packages [NewSAMLClient] hands over to.  Their code is
    outside this development: a resolution that reaches one of them is recorded
    as [Construct pkg idpAccount], standing for [return pkg.New(idpAccount)]
    ([netiq.New] also receives [idpAccount.MFA]). *)
Inductive provider_pkg : Type :=
  | aad | adfs | adfs2 | pingfed | pingone | jumpcloud | okta | onelogin
  | keycloak | googleapps | shibboleth | shibbolethecp | f5apm | akamai
  | shell | netiq | browser | custom.

Inductive resolution : Type :=
  | Construct (pkg : provider_pkg) (idpAccount : IDPAccount)
  | Fail (err : error).

Definition invalid_MFA_error (idpAccount : IDPAccount) : error :=
  fmt_Errorf ("invalid MFA type: " +:+ MFA idpAccount +:+ " for "
              +:+ Provider idpAccount +:+ " provider").

Definition invalid_provider_error (idpAccount : IDPAccount) : error :=
  fmt_Errorf ("invalid provider: " +:+ Provider idpAccount).

(** A [case] of the switch that checks the MFA first. *)
Definition checked (pkg : provider_pkg) (idpAccount : IDPAccount)
    (tbl : ProviderList) : resolution * ProviderList :=
  let '(invalid, tbl') :=
    invalidMFA (Provider idpAccount) (MFA idpAccount) tbl in
  if invalid then (Fail (invalid_MFA_error idpAccount), tbl')
  else (Construct pkg idpAccount, tbl').

(** A [case] of the switch that does not. *)
Definition unchecked (pkg : provider_pkg) (idpAccount : IDPAccount)
    (tbl : ProviderList) : resolution * ProviderList :=
  (Construct pkg idpAccount, tbl).

Definition NewSAMLClient (idpAccount : IDPAccount) (tbl : ProviderList)
  : resolution * ProviderList :=
  let p := Provider idpAccount in
  if bool_decide (p = "AzureAD") then checked aad idpAccount tbl
  else if bool_decide (p = "ADFS") then checked adfs idpAccount tbl
  else if bool_decide (p = "ADFS2") then checked adfs2 idpAccount tbl
  else if bool_decide (p = "Ping") then checked pingfed idpAccount tbl
  else if bool_decide (p = "PingOne") then checked pingone idpAccount tbl
  else if bool_decide (p = "JumpCloud") then checked jumpcloud idpAccount tbl
  else if bool_decide (p = "Okta") then checked okta idpAccount tbl
  else if bool_decide (p = "OneLogin") then checked onelogin idpAccount tbl
  else if bool_decide (p = "KeyCloak") then checked keycloak idpAccount tbl
  else if bool_decide (p = "GoogleApps") then checked googleapps idpAccount tbl
  else if bool_decide (p = "Shibboleth") then checked shibboleth idpAccount tbl
  else if bool_decide (p = "ShibbolethECP")
       then checked shibbolethecp idpAccount tbl
  else if bool_decide (p = "F5APM") then checked f5apm idpAccount tbl
  else if bool_decide (p = "Akamai") then checked akamai idpAccount tbl
  else if bool_decide (p = "Shell") then unchecked shell idpAccount tbl
  else if bool_decide (p = "NetIQ") then checked netiq idpAccount tbl
  else if bool_decide (p = "Browser") then unchecked browser idpAccount tbl
  else if bool_decide (p = "Custom") then unchecked custom idpAccount tbl
  else (Fail (invalid_provider_error idpAccount), tbl).

End saml2alibabacloud.

(** ** Package creds *)

Module creds.

(** Modelled from the spec: the declaration of [creds.LoginDetails] is not
    among the sources at hand.  The record holds the fields the sources read
    or write: "URL, username, password, and (for providers that need it)
    client identifier/secret", and the provider name [Validate] reads. *)
Record LoginDetails : Type := mkLoginDetails {
  ClientID : string;
  ClientSecret : string;
  Username : string;
  Password : string;
  URL : string;
  Provider : string
}.

Definition with_Username (v : string) (ld : LoginDetails) : LoginDetails :=
  mkLoginDetails (ClientID ld) (ClientSecret ld) v (Password ld) (URL ld)
                 (Provider ld).
Definition with_Password (v : string) (ld : LoginDetails) : LoginDetails :=
  mkLoginDetails (ClientID ld) (ClientSecret ld) (Username ld) v (URL ld)
                 (Provider ld).
Definition with_ClientID (v : string) (ld : LoginDetails) : LoginDetails :=
  mkLoginDetails v (ClientSecret ld) (Username ld) (Password ld) (URL ld)
                 (Provider ld).
Definition with_ClientSecret (v : string) (ld : LoginDetails) : LoginDetails :=
  mkLoginDetails (ClientID ld) v (Username ld) (Password ld) (URL ld)
                 (Provider ld).

End creds.

(** ** Package provider *)

Module provider.
Import creds.

(** [ValidateBase.Validate]: [None] is Go's [nil] error. *)
Definition Validate (ld : LoginDetails) : option error :=
  if bool_decide (URL ld = "") then Some (errors_New "Empty URL")
  else if bool_decide (Provider ld ≠ "Browser") then
    if bool_decide (Username ld = "") then Some (errors_New "Empty username")
    else if bool_decide (Password ld = "") then
      Some (errors_New "Empty password")
    else None
  else None.

End provider.

(** ** Package prompter (interface only) *)

Module prompter.

(** Computations that talk to the user: [W] is the state of the terminal
    (what the user is going to answer), threaded through every prompt. *)
Definition M (W A : Type) : Type := W → A * W.

Global Instance M_ret {W} : MRet (M W) := λ A a w, (a, w).
Global Instance M_bind {W} : MBind (M W) :=
  λ A B k m w, let '(a, w') := m w in k a w'.

(** The three prompts the sources call.  [ChooseWithDefault] returns Go's
    pair [(string, error)]. *)
Class Prompter (W : Type) : Type := {
  ChooseWithDefault :
    string → string → list string → M W (string * option error);
  String : string → string → M W string;
  Password : string → M W string
}.

(** A scripted user: the answers still to be typed, one per prompt.  An empty
    answer to [String] keeps the default; [ChooseWithDefault] fails on an
    answer outside the options. *)
Definition next_answer (w : list string) : string * list string :=
  match w with
  | [] => ("", [])
  | a :: w' => (a, w')
  end.

Global Instance scripted : Prompter (list string) := {|
  ChooseWithDefault _ def options w :=
    let '(a, w') := next_answer w in
    if bool_decide (a = "") then ((def, None), w')
    else if bool_decide (a ∈ options) then ((a, None), w')
    else (("", Some (errors_New "interrupt")), w');
  String _ def w :=
    let '(a, w') := next_answer w in
    (if bool_decide (a = "") then def else a, w');
  Password _ w := next_answer w
|}.

End prompter.

(** ** Package saml2alibabacloud: prompts of input.go *)

Module input.
Import creds prompter.

(** Modelled from the spec: the declarations of [AlibabaCloudAccount] and
    [RamRole] are not among the sources at hand: "a named grouping of RamRole
    entries (role display name + role ARN + principal/provider ARN)".  Slices
    of pointers are read as lists of values. *)
Record RamRole : Type := mkRamRole {
  RoleARN : string;
  PrincipalARN : string;
  Name : string
}.

Record AlibabaCloudAccount : Type := mkAlibabaCloudAccount {
  AccountName : string;
  Roles : list RamRole
}.

Global Instance RamRole_eq_dec : EqDecision RamRole.
Proof. solve_decision. Defined.

Section with_prompter.
Context {W : Type} `{!Prompter W}.

(** [PromptForLoginDetails] updates [*loginDetails] in place; the updated
    struct is returned with the error.  [log.Println] is not modelled. *)
Definition PromptForLoginDetails (loginDetails : LoginDetails)
    (provider : string) : M W (LoginDetails * option error) :=
  if bool_decide (provider = "Browser") then mret (loginDetails, None)
  else
    username ← String "Username" (Username loginDetails);
    let loginDetails := with_Username username loginDetails in
    enteredPassword ← Password "Password";
    let loginDetails :=
      if bool_decide (enteredPassword ≠ "")
      then with_Password enteredPassword loginDetails else loginDetails in
    loginDetails ←
      (if bool_decide (provider = "OneLogin") then
         loginDetails ←
           (if bool_decide (ClientID loginDetails = "") then
              enteredClientID ← Password "Client ID";
              mret (if bool_decide (enteredClientID ≠ "")
                    then with_ClientID enteredClientID loginDetails
                    else loginDetails)
            else mret loginDetails);
         (if bool_decide (ClientSecret loginDetails = "") then
            enteredCientSecret ← Password "Client Secret";
            mret (if bool_decide (enteredCientSecret ≠ "")
                  then with_ClientSecret enteredCientSecret loginDetails
                  else loginDetails)
          else mret loginDetails)
       else mret loginDetails);
    mret (loginDetails, None).

(** The two nested [range] loops of [PromptForRamRoleSelection]: the map
    [roles] and the slice [roleOptions] after them. *)
Definition add_role (account : AlibabaCloudAccount)
    (acc : gmap string RamRole * list string) (role : RamRole)
  : gmap string RamRole * list string :=
  let name := AccountName account +:+ " / " +:+ Name role in
  (<[name := role]> acc.1, (acc.2 ++ [name])%list).

Definition add_account (acc : gmap string RamRole * list string)
    (account : AlibabaCloudAccount) : gmap string RamRole * list string :=
  foldl (add_role account) acc (Roles account).

Definition collect_roles (accounts : list AlibabaCloudAccount)
  : gmap string RamRole * list string :=
  foldl add_account (∅, []) accounts.

(** [PromptForRamRoleSelection]: the result is the returned pair of
    a role pointer (nil is [None]) and an error;
    [roleOptions[0]] panics on an empty slice. *)
Definition PromptForRamRoleSelection (accounts : list AlibabaCloudAccount)
  : M W (go (option RamRole * option error)) :=
  let '(roles, roleOptions) := collect_roles accounts in
  let roleOptions := sort_Strings roleOptions in
  match roleOptions with
  | [] => mret (Panic "runtime error: index out of range [0] with length 0")
  | first :: _ =>
      '(selectedRole, err) ←
        ChooseWithDefault "Please choose the role" first roleOptions;
      match err with
      | Some err =>
          mret (Return (None, Some (errors_Wrap err "Role selection failed")))
      | None => mret (Return (roles !! selectedRole, None))
      end
  end.

(** The prompts that follow the choice of the provider and of the MFA in
    [PromptForConfigurationDetails]: profile, URL, user name, then the fields
    of the provider chosen. *)
Definition prompt_account_fields (idpAccount : cfg.IDPAccount)
  : M W cfg.IDPAccount :=
  profile ← String "AlibabaCloud CLI Profile" (cfg.Profile idpAccount);
  let idpAccount := cfg.with_Profile profile idpAccount in
  url ← String "URL" (cfg.URL idpAccount);
  let idpAccount := cfg.with_URL url idpAccount in
  username ← String "Username" (cfg.Username idpAccount);
  let idpAccount := cfg.with_Username username idpAccount in
  if bool_decide (cfg.Provider idpAccount = "OneLogin") then
    appID ← String "App ID" (cfg.AppID idpAccount);
    let idpAccount := cfg.with_AppID appID idpAccount in
    subdomain ← String "Subdomain" (cfg.Subdomain idpAccount);
    mret (cfg.with_Subdomain subdomain idpAccount)
  else if bool_decide (cfg.Provider idpAccount = "F5APM") then
    resourceID ← String "Resource ID" (cfg.ResourceID idpAccount);
    mret (cfg.with_ResourceID resourceID idpAccount)
  else if bool_decide (cfg.Provider idpAccount = "AzureAD") then
    appID ← String "App ID" (cfg.AppID idpAccount);
    mret (cfg.with_AppID appID idpAccount)
  else mret idpAccount.

(** [PromptForConfigurationDetails] updates [*idpAccount] in place and reads
    the package variable [MFAsByProvider]: the account as the call leaves it is
    returned with the error (or the panic of [mfas[0]] on an empty slice) and
    with the table after the call. *)
Definition PromptForConfigurationDetails (idpAccount : cfg.IDPAccount)
    (tbl : saml2alibabacloud.ProviderList)
  : M W (cfg.IDPAccount * go (option error) * saml2alibabacloud.ProviderList) :=
  let providers := saml2alibabacloud.Names tbl in
  '(provider, err) ←
    ChooseWithDefault "Please choose a provider:" (cfg.Provider idpAccount)
      providers;
  let idpAccount := cfg.with_Provider provider idpAccount in
  match err with
  | Some err =>
      mret (idpAccount,
            Return (Some (errors_Wrap err "error selecting provider file")),
            tbl)
  | None =>
      let '(mfas, tbl) :=
        saml2alibabacloud.Mfas (cfg.Provider idpAccount) tbl in
      if bool_decide (1 < length mfas) then
        '(mfa, err) ←
          ChooseWithDefault "Please choose an MFA" (cfg.MFA idpAccount) mfas;
        let idpAccount := cfg.with_MFA mfa idpAccount in
        match err with
        | Some err =>
            mret (idpAccount,
                  Return (Some (errors_Wrap err "error selecting mfa")), tbl)
        | None =>
            idpAccount ← prompt_account_fields idpAccount;
            mret (idpAccount, Return None, tbl)
        end
      else
        match mfas with
        | [] =>
            mret (idpAccount,
                  Panic "runtime error: index out of range [0] with length 0",
                  tbl)
        | first :: _ =>
            let idpAccount := cfg.with_MFA first idpAccount in
            idpAccount ← prompt_account_fields idpAccount;
            mret (idpAccount, Return None, tbl)
        end
  end.

End with_prompter.
End input.

(** * Vocabulary of the specification *)

Import cfg saml2alibabacloud.

(** A table that holds, for every provider, the MFA identifiers of the static
    table in some order. *)
Definition reordered (tbl : ProviderList) : Prop :=
  ∀ provider,
    option_Forall2 Permutation (tbl !! provider) (MFAsByProvider !! provider).

(** The providers whose flow negotiates the MFA by itself. *)
Definition out_of_band : list string := ["Browser"; "Shell"; "Custom"].

(** An account for a provider and an MFA, every other field zero. *)
Definition account_for (provider mfa : string) : IDPAccount :=
  with_Provider provider (with_MFA mfa zero).

Section role_vocabulary.
Import input.

(** The composite labels of the roles of all accounts, in the order of the
    accounts and of their roles. *)
Definition composite_labels (accounts : list AlibabaCloudAccount)
  : list string :=
  accounts ≫= λ account,
    (λ role, AccountName account +:+ " / " +:+ Name role) <$> Roles account.

(** Two accounts whose labels are "Acct2 / Admin", "Acct1 / Admin" and
    "Acct1 / Viewer", in that order. *)
Definition role_Acct1_Admin : RamRole :=
  mkRamRole "acs:ram::1:role/admin" "acs:ram::1:saml-provider/idp" "Admin".
Definition role_Acct1_Viewer : RamRole :=
  mkRamRole "acs:ram::1:role/viewer" "acs:ram::1:saml-provider/idp" "Viewer".
Definition role_Acct2_Admin : RamRole :=
  mkRamRole "acs:ram::2:role/admin" "acs:ram::2:saml-provider/idp" "Admin".
Definition three_roles : list AlibabaCloudAccount :=
  [ mkAlibabaCloudAccount "Acct2" [role_Acct2_Admin];
    mkAlibabaCloudAccount "Acct1" [role_Acct1_Admin; role_Acct1_Viewer] ].

(** What [PromptForRamRoleSelection] returns once the chooser has answered. *)
Definition selection_result (roles : gmap string RamRole)
    (answer : string * option error) : go (option RamRole * option error) :=
  match answer.2 with
  | Some err => Return (None, Some (errors_Wrap err "Role selection failed"))
  | None => Return (roles !! answer.1, None)
  end.

End role_vocabulary.

(** Login details with every field set, for examples. *)
Definition stored_login : creds.LoginDetails :=
  creds.mkLoginDetails "client" "secret" "alice" "hunter2"
                       "https://idp.example.com" "OneLogin".

(** What an account can lack, as the specification lists it. *)
Inductive problem : Type :=
  | AppID_empty | Subdomain_empty | ResourceID_empty
  | URL_empty | URL_unparsable | Provider_empty | MFA_empty | Profile_empty.

Definition offends `{!NetURL} (ia : IDPAccount) (p : problem) : Prop :=
  match p with
  | AppID_empty =>
      (Provider ia = "OneLogin" ∨ Provider ia = "AzureAD") ∧ AppID ia = ""
  | Subdomain_empty => Provider ia = "OneLogin" ∧ Subdomain ia = ""
  | ResourceID_empty => Provider ia = "F5APM" ∧ ResourceID ia = ""
  | URL_empty => URL ia = ""
  | URL_unparsable => is_Some (url_Parse (URL ia))
  | Provider_empty => Provider ia = ""
  | MFA_empty => MFA ia = ""
  | Profile_empty => Profile ia = ""
  end.

(** The text by which the validation error names the field. *)
Definition message (p : problem) : string :=
  match p with
  | AppID_empty => "app ID empty in idp account"
  | Subdomain_empty => "subdomain empty in idp account"
  | ResourceID_empty => "Resource ID empty in idp account"
  | URL_empty => "URL empty in idp account"
  | URL_unparsable => "URL parse failed"
  | Provider_empty => "Provider empty in idp account"
  | MFA_empty => "MFA empty in idp account"
  | Profile_empty => "Profile empty in idp account"
  end.

(** The keys a path holds for a section; none when the file or the section is
    missing. *)
Definition stored_keys (fs : ini.filesystem) (path sec : string)
  : gmap string string :=
  match ini.files fs !! path with
  | Some d => ini.keys (ini.parsed d) sec
  | None => ∅
  end.

(** A section name and its parent sections, under the names [GetSection]
    resolves them to. *)
Definition resolve (name : string) : string :=
  if bool_decide (name = "") then ini.DefaultSection else name.

Definition lineage (name : string) : list string :=
  resolve <$> name :: ini.parents name.

(** Accounts and files for examples. *)
Definition the_manager : ConfigManager :=
  mkConfigManager "/home/alice/.saml2alibabacloud".

Definition onelogin_account (appID subdomain : string) : IDPAccount :=
  with_AppID appID (with_Subdomain subdomain
    (with_URL "https://example.onelogin.com/saml"
       (with_Provider "OneLogin" (with_MFA "Auto" NewIDPAccount)))).

Definition okta_account (url profile : string) : IDPAccount :=
  with_URL url (with_Profile profile
    (with_Provider "Okta" (with_MFA "Auto" NewIDPAccount))).

Definition no_files : ini.filesystem := ini.mkFilesystem ∅ ∅.

(** A file with a section "work". *)
Definition work_section : gmap string string :=
  {[ "url" := "https://work.example.com";
     "provider" := "Okta";
     "mfa" := "Auto";
     "alibabacloud_profile" := "prod" ]}.

Definition work_sections : gmap string (gmap string string) :=
  {[ "work" := work_section ]}.

Definition work_file : ini.filesystem :=
  ini.mkFilesystem
    {[ configPath the_manager := ini.mkOnDisk work_sections None ]} ∅.

(** The same file followed by a line the parser rejects. *)
Definition damaged_file : ini.filesystem :=
  ini.mkFilesystem
    {[ configPath the_manager :=
         ini.mkOnDisk work_sections
           (Some (errors_New "key-value delimiter not found: garbage")) ]} ∅.

(** A user who types one of the options offered: [ChooseWithDefault] fails
    on any other answer, the empty one included. *)
Definition menu_user : prompter.Prompter (list string) := {|
  prompter.ChooseWithDefault _ _ options w :=
    let '(a, w') := prompter.next_answer w in
    if bool_decide (a ∈ options) then ((a, None), w')
    else (("", Some (errors_New "interrupt")), w');
  prompter.String _ def w :=
    let '(a, w') := prompter.next_answer w in
    (if bool_decide (a = "") then def else a, w');
  prompter.Password _ w := prompter.next_answer w
|}.

(** A chooser that, when it returns no error, returns one of the options. *)
Definition answers_within_options {W} `{!prompter.Prompter W} : Prop :=
  ∀ prompt def options w,
    (prompter.ChooseWithDefault prompt def options w).1.2 = None →
    (prompter.ChooseWithDefault prompt def options w).1.1 ∈ options.

(** The roles of all accounts, each with its composite label. *)
Definition labelled_roles (accounts : list input.AlibabaCloudAccount)
  : list (string * input.RamRole) :=
  accounts ≫= λ account,
    (λ role, (input.AccountName account +:+ " / " +:+ input.Name role, role))
      <$> input.Roles account.

(** A field that [ReflectFrom] does not write: [omitempty] and empty. *)
Definition skipped (a : IDPAccount) (fld : ini.field IDPAccount) : bool :=
  ini.omitempty fld && ini.isEmptyValue (ini.get fld a).

(** The keys of a section after a field of an account is written to it. *)
Definition store_field (a : IDPAccount) (ks : gmap string string)
    (fld : ini.field IDPAccount) : gmap string string :=
  if skipped a fld then ks
  else <[ini.tag fld := ini.Sprint (ini.get fld a)]> ks.

(** The conversions of [MapTo] read every written field of the account back
    from its printed text, on an account that still has the default there. *)
Definition reads_back `{!ini.Conv} (a : IDPAccount) : Prop :=
  ∀ fld b,
    fld ∈ fields → skipped a fld = false →
    ini.get fld b = ini.get fld NewIDPAccount →
    ini.get fld (ini.setWithProperType fld (ini.Sprint (ini.get fld a)) b)
    = ini.get fld a.

(** Conversions for examples: a string is taken as it is unless empty,
    booleans are "true" and "false", integers are decimal. *)
Definition text_Conv : ini.Conv := {|
  ini.conv_string s := if bool_decide (s = "") then None else Some s;
  ini.conv_bool s :=
    if bool_decide (s = "true") then Some true
    else if bool_decide (s = "false") then Some false else None;
  ini.conv_int s := Z.of_int <$> NilZero.int_of_string s
|}.

(** The order in which [Validate] makes its checks. *)
Definition rank (p : problem) : nat :=
  match p with
  | AppID_empty | ResourceID_empty => 0
  | Subdomain_empty => 1
  | URL_empty => 2
  | URL_unparsable => 3
  | Provider_empty => 4
  | MFA_empty => 5
  | Profile_empty => 6
  end.

(** * Properties *)

(** ** [sort.Strings] *)

Lemma sort_Strings_Permutation (a : list string) : sort_Strings a ≡ₚ a.
Proof. apply merge_sort_Permutation. Qed.

Lemma sort_Strings_Sorted (a : list string) : Sorted String.le (sort_Strings a).
Proof. apply (Sorted_merge_sort String.le). Qed.

(** Whatever sorts a slice of strings computes [sort_Strings]. *)
Lemma sort_Strings_unique (a b : list string) :
  Sorted String.le b → b ≡ₚ a → b = sort_Strings a.
Proof.
  intros Hb Hperm. apply (Sorted_unique String.le); [done| |].
  - apply sort_Strings_Sorted.
  - by rewrite sort_Strings_Permutation.
Qed.

Lemma sort_Strings_idemp (a : list string) :
  sort_Strings (sort_Strings a) = sort_Strings a.
Proof.
  symmetry. apply sort_Strings_unique; [apply sort_Strings_Sorted|].
  by rewrite sort_Strings_Permutation.
Qed.

Lemma sort_Strings_head_least (a : list string) (first x : string) :
  head (sort_Strings a) = Some first → x ∈ a → String.le first x.
Proof.
  intros Hhd Hx.
  pose proof (StronglySorted_merge_sort String.le a) as Hs.
  apply (elem_of_Permutation_proper _ _ _ (sort_Strings_Permutation a)) in Hx.
  unfold sort_Strings in *. destruct (merge_sort String.le a) as [|y l]; [done|].
  simplify_eq/=. apply StronglySorted_cons in Hs as [Hall _].
  apply elem_of_cons in Hx as [->|Hx]; [done|].
  by eapply Forall_forall in Hall.
Qed.

(** ** The provider registry *)

Section registry.

Lemma stringInSlice_elem_of (a : string) (l : list string) :
  stringInSlice a l = bool_decide (a ∈ l).
Proof.
  induction l as [|b l IH]; simpl; [done|].
  destruct (decide (b = a)) as [->|Hne].
  - rewrite bool_decide_eq_true_2 by done.
    symmetry. apply bool_decide_eq_true_2. left.
  - rewrite bool_decide_eq_false_2 by done.
    rewrite IH. apply bool_decide_ext.
    rewrite elem_of_cons. split; [by right|]. by intros [->|?].
Qed.

Lemma reordered_initial : reordered MFAsByProvider.
Proof. intros p. destruct (MFAsByProvider !! p); by constructor. Qed.

(** What [Mfas] keeps: the keys and, for each key, the identifiers up to
    their order. *)
Lemma Mfas_reordered (provider : string) (tbl : ProviderList) :
  reordered tbl → reordered (Mfas provider tbl).2.
Proof.
  intros Htbl p. unfold Mfas. pose proof (Htbl provider) as Hp.
  destruct (tbl !! provider) as [mfas|] eqn:Hlook; simpl; [|apply Htbl].
  destruct (decide (provider = p)) as [->|Hne].
  - rewrite lookup_insert_eq. inversion Hp as [? y Hperm|]; subst.
    constructor. by rewrite sort_Strings_Permutation.
  - rewrite lookup_insert_ne by done. apply Htbl.
Qed.

Lemma invalidMFA_reordered (provider mfa : string) (tbl : ProviderList)
    (mfas : list string) :
  reordered tbl →
  MFAsByProvider !! provider = Some mfas →
  (invalidMFA provider mfa tbl).1 = bool_decide (mfa ∉ mfas).
Proof.
  intros Htbl Hkey. unfold invalidMFA, Mfas. pose proof (Htbl provider) as Hp.
  rewrite Hkey in Hp. inversion Hp as [l ? Hperm Hl|]; subst. simpl.
  rewrite stringInSlice_elem_of, <-bool_decide_not.
  apply bool_decide_ext. by rewrite sort_Strings_Permutation, Hperm.
Qed.

Lemma checked_reordered (pkg : provider_pkg) (ia : IDPAccount)
    (tbl : ProviderList) (mfas : list string) :
  reordered tbl →
  MFAsByProvider !! Provider ia = Some mfas →
  (checked pkg ia tbl).1 =
    if bool_decide (MFA ia ∈ mfas) then Construct pkg ia
    else Fail (invalid_MFA_error ia).
Proof.
  intros Htbl Hkey. unfold checked.
  pose proof (invalidMFA_reordered _ (MFA ia) _ _ Htbl Hkey) as Hinv.
  destruct (invalidMFA _ _ _) as [invalid tbl']. simpl in Hinv. subst.
  repeat case_bool_decide; done.
Qed.

Lemma checked_table (pkg : provider_pkg) (ia : IDPAccount)
    (tbl : ProviderList) :
  (checked pkg ia tbl).2 = (Mfas (Provider ia) tbl).2.
Proof.
  unfold checked, invalidMFA. destruct (Mfas _ _) as [l tbl'].
  by destruct (negb _).
Qed.

(** The keys of the static table. *)
Lemma MFAsByProvider_keys (provider : string) (mfas : list string) :
  MFAsByProvider !! provider = Some mfas →
  provider ∈ ["AzureAD"; "ADFS"; "ADFS2"; "Ping"; "PingOne"; "JumpCloud";
              "Okta"; "OneLogin"; "KeyCloak"; "GoogleApps"; "Shibboleth";
              "F5APM"; "Akamai"; "ShibbolethECP"; "NetIQ"; "Custom";
              "Browser"].
Proof.
  intros H%elem_of_list_to_map_2.
  apply (list_elem_of_fmap_2 fst) in H. exact H.
Qed.

(** The switch of [NewSAMLClient], case by case. *)
Lemma NewSAMLClient_key (ia : IDPAccount) (tbl : ProviderList)
    (mfas : list string) :
  MFAsByProvider !! Provider ia = Some mfas →
  (∃ pkg, Provider ia ∈ out_of_band ∧
            NewSAMLClient ia tbl = unchecked pkg ia tbl) ∨
  (∃ pkg, (Provider ia ∉ out_of_band) ∧
            NewSAMLClient ia tbl = checked pkg ia tbl).
Proof.
  intros Hkey%MFAsByProvider_keys. unfold NewSAMLClient, out_of_band.
  repeat (apply elem_of_cons in Hkey as [->|Hkey]);
    try (right; eexists; split; [compute_done|reflexivity]);
    try (left; eexists; split; [compute_done|reflexivity]).
  by apply elem_of_nil in Hkey.
Qed.

End registry.

Section registry_claims.

(** C1.  In a table that holds the static identifiers in any order (the static
    table itself, or what earlier calls left of it), and for an account whose
    provider is a key of the static table: outside the out-of-band providers the
    resolution fails with the invalid-MFA error exactly when the MFA is not,
    character for character, one of the provider's identifiers, and otherwise
    hands over to the provider package; for "Browser", "Shell" and "Custom" it
    hands over whatever the MFA is.  A failed resolution is a value of
    [Fail]: no provider package, hence no network, was entered. *)
Theorem NewSAMLClient_MFA_check (tbl : ProviderList) (ia : IDPAccount) :
  reordered tbl →
  (∀ mfas, MFAsByProvider !! Provider ia = Some mfas →
     Provider ia ∉ out_of_band →
     ((NewSAMLClient ia tbl).1 = Fail (invalid_MFA_error ia) ↔ MFA ia ∉ mfas)
     ∧ ((∃ pkg, (NewSAMLClient ia tbl).1 = Construct pkg ia) ↔ MFA ia ∈ mfas))
  ∧ (Provider ia ∈ out_of_band →
     ∃ pkg, NewSAMLClient ia tbl = (Construct pkg ia, tbl)).
Proof.
  intros Htbl. split.
  - intros mfas Hkey Hoob.
    destruct (NewSAMLClient_key ia tbl mfas Hkey)
      as [[pkg [Hin _]]|[pkg [_ ->]]]; [done|].
    rewrite (checked_reordered pkg ia tbl mfas Htbl Hkey).
    case_bool_decide as Hmfa; split; split; try done.
    + intros _. by exists pkg.
    + by intros [? ?].
  - unfold out_of_band, NewSAMLClient, unchecked. intros Hin.
    repeat (apply elem_of_cons in Hin as [->|Hin]);
      [eexists; reflexivity..|].
    by apply elem_of_nil in Hin.
Qed.

Lemma NewSAMLClient_MFA_check_witness :
  ((NewSAMLClient (account_for "Okta" "totp") MFAsByProvider).1
   = Fail (errors_New "invalid MFA type: totp for Okta provider"))
  ∧ (∃ pkg, (NewSAMLClient (account_for "Okta" "TOTP") MFAsByProvider).1
            = Construct pkg (account_for "Okta" "TOTP"))
  ∧ (∃ pkg, NewSAMLClient (account_for "Browser" "totp") MFAsByProvider
            = (Construct pkg (account_for "Browser" "totp"), MFAsByProvider)).
Proof.
  pose proof (NewSAMLClient_MFA_check MFAsByProvider
                (account_for "Okta" "totp") reordered_initial) as [H1 _].
  pose proof (NewSAMLClient_MFA_check MFAsByProvider
                (account_for "Okta" "TOTP") reordered_initial) as [H2 _].
  pose proof (NewSAMLClient_MFA_check MFAsByProvider
                (account_for "Browser" "totp") reordered_initial) as [_ H3].
  split; [|split].
  - apply (H1 _ eq_refl); compute_done.
  - apply (H2 _ eq_refl); compute_done.
  - apply H3. compute_done.
Defined.

(** C2 as stated fails: "Shell" is not a key of the static table, and the
    switch hands it over to the shell package. *)
Lemma NewSAMLClient_Shell_not_unknown :
  ¬ (∀ ia : IDPAccount,
       MFAsByProvider !! Provider ia = None →
       (NewSAMLClient ia MFAsByProvider).1 = Fail (invalid_provider_error ia)).
Proof.
  intros H. specialize (H (account_for "Shell" "Auto") eq_refl).
  vm_compute in H. discriminate H.
Qed.

(** C2, amended.  A provider name that is neither a key of the static table
    nor "Shell" is refused with the invalid-provider error, no client is
    returned and the table is not touched; "Shell" is handed to its
    package. *)
Theorem NewSAMLClient_unknown_provider (tbl : ProviderList) (ia : IDPAccount) :
  MFAsByProvider !! Provider ia = None →
  (Provider ia ≠ "Shell" →
     NewSAMLClient ia tbl = (Fail (invalid_provider_error ia), tbl))
  ∧ (Provider ia = "Shell" →
     NewSAMLClient ia tbl = (Construct shell ia, tbl)).
Proof.
  intros Hkey%not_elem_of_list_to_map_2. simpl in Hkey.
  unfold NewSAMLClient, unchecked. split.
  - intros Hshell.
    repeat (case_bool_decide as Hp;
            [exfalso; first [done | apply Hkey; rewrite Hp; compute_done]
            |clear Hp]).
    done.
  - intros ->. reflexivity.
Qed.

Lemma NewSAMLClient_unknown_provider_witness :
  NewSAMLClient (account_for "LDAP" "Auto") MFAsByProvider
  = (Fail (errors_New "invalid provider: LDAP"), MFAsByProvider).
Proof.
  apply (NewSAMLClient_unknown_provider MFAsByProvider
           (account_for "LDAP" "Auto") eq_refl).
  compute_done.
Defined.

(** C8: one call of [Mfas] leaves the entry of "AzureAD" in another order
    than the program text gave it, and so does a resolution for that
    provider. *)
Theorem Mfas_reorders_the_table :
  MFAsByProvider !! "AzureAD"
    = Some ["Auto"; "PhoneAppOTP"; "PhoneAppNotification"; "OneWaySMS"]
  ∧ (Mfas "AzureAD" MFAsByProvider).2 !! "AzureAD"
    = Some ["Auto"; "OneWaySMS"; "PhoneAppNotification"; "PhoneAppOTP"]
  ∧ (Mfas "AzureAD" MFAsByProvider).2 ≠ MFAsByProvider
  ∧ (NewSAMLClient (account_for "AzureAD" "Auto") MFAsByProvider).2
    ≠ MFAsByProvider.
Proof.
  split; [reflexivity|]. split; [by vm_compute|].
  split; intros H; apply (f_equal (λ m, m !! "AzureAD")) in H;
    vm_compute in H; discriminate H.
Qed.

(** What the calls do keep: after any resolution the table still holds the
    static identifiers of every provider, in some order. *)
Lemma NewSAMLClient_reordered (tbl : ProviderList) (ia : IDPAccount) :
  reordered tbl → reordered (NewSAMLClient ia tbl).2.
Proof.
  intros Htbl.
  assert (∀ pkg, reordered (checked pkg ia tbl).2) as Hc.
  { intros pkg. rewrite checked_table. by apply Mfas_reordered. }
  unfold NewSAMLClient, unchecked.
  repeat (case_bool_decide; [first [apply Hc | exact Htbl]|]).
  exact Htbl.
Qed.

End registry_claims.

(** ** The role resolver *)

Section role_resolver.
Import prompter input.
Context {W : Type} `{!Prompter W}.

Lemma add_account_labels (acc : gmap string RamRole * list string)
    (account : AlibabaCloudAccount) :
  (add_account acc account).2 =
    (acc.2 ++ ((λ role, AccountName account +:+ " / " +:+ Name role)
                 <$> Roles account))%list.
Proof.
  unfold add_account. revert acc.
  induction (Roles account) as [|role roles IH]; intros acc; simpl.
  - by rewrite app_nil_r.
  - rewrite IH. simpl. by rewrite <-app_assoc.
Qed.

Lemma foldl_add_account_labels (acc : gmap string RamRole * list string)
    (accounts : list AlibabaCloudAccount) :
  (foldl add_account acc accounts).2 =
    (acc.2 ++ composite_labels accounts)%list.
Proof.
  revert acc. induction accounts as [|account accounts IH]; intros acc; simpl.
  - by rewrite app_nil_r.
  - rewrite IH, add_account_labels. unfold composite_labels. csimpl.
    by rewrite app_assoc.
Qed.

(** [roleOptions] holds one label per role of every account. *)
Lemma collect_roles_labels (accounts : list AlibabaCloudAccount) :
  (collect_roles accounts).2 = composite_labels accounts.
Proof. unfold collect_roles. by rewrite foldl_add_account_labels. Qed.

(** C3.  With at least one role, the options offered to the chooser are the
    composite labels of all roles, one per role, in increasing byte-wise order;
    the default offered is the first of them, hence a least label; and the
    only prompt is that choice, whose answer decides the result. *)
Theorem PromptForRamRoleSelection_sorted_labels
    (accounts : list AlibabaCloudAccount) (w : W) :
  composite_labels accounts ≠ [] →
  let presented := sort_Strings (composite_labels accounts) in
  presented ≡ₚ composite_labels accounts
  ∧ Sorted String.le presented
  ∧ ∃ first,
      head presented = Some first
      ∧ (∀ label, label ∈ composite_labels accounts → String.le first label)
      ∧ PromptForRamRoleSelection accounts w =
          let '(answer, w') :=
            ChooseWithDefault "Please choose the role" first presented w in
          (selection_result (collect_roles accounts).1 answer, w').
Proof.
  intros Hne presented.
  split; [apply sort_Strings_Permutation|].
  split; [apply sort_Strings_Sorted|].
  destruct presented as [|first rest] eqn:Hsorted.
  { destruct Hne. apply Permutation_nil_r.
    rewrite <-(sort_Strings_Permutation (composite_labels accounts)).
    by fold presented; rewrite Hsorted. }
  exists first. split; [done|]. split.
  { intros label. apply sort_Strings_head_least.
    by fold presented; rewrite Hsorted. }
  unfold PromptForRamRoleSelection.
  pose proof (collect_roles_labels accounts) as Hlabels.
  destruct (collect_roles accounts) as [roles roleOptions].
  simpl in Hlabels. subst roleOptions. fold presented. rewrite Hsorted.
  unfold mbind, M_bind.
  destruct (ChooseWithDefault _ _ _ w) as [[selected [err|]] w']; done.
Qed.

(** C4: without any role the sorted slice is empty and [roleOptions[0]]
    panics; no error value is returned and the chooser is not called. *)
Theorem PromptForRamRoleSelection_no_roles_panics
    (accounts : list AlibabaCloudAccount) (w : W) :
  composite_labels accounts = [] →
  PromptForRamRoleSelection accounts w =
    (Panic "runtime error: index out of range [0] with length 0", w).
Proof.
  intros Hnil. unfold PromptForRamRoleSelection.
  pose proof (collect_roles_labels accounts) as Hlabels.
  destruct (collect_roles accounts) as [roles roleOptions].
  simpl in Hlabels. subst roleOptions. by rewrite Hnil.
Qed.

End role_resolver.

Lemma PromptForRamRoleSelection_sorted_labels_witness :
  composite_labels three_roles
    = ["Acct2 / Admin"; "Acct1 / Admin"; "Acct1 / Viewer"]
  ∧ sort_Strings (composite_labels three_roles)
    = ["Acct1 / Admin"; "Acct1 / Viewer"; "Acct2 / Admin"]
  ∧ ∃ first,
      head (sort_Strings (composite_labels three_roles)) = Some first
      ∧ first = "Acct1 / Admin"
      ∧ @input.PromptForRamRoleSelection _ prompter.scripted three_roles [""]
        = (Return (Some role_Acct1_Admin, None), []).
Proof.
  split; [reflexivity|]. split; [by vm_compute|].
  destruct (@PromptForRamRoleSelection_sorted_labels
              _ prompter.scripted three_roles [""])
    as (_ & _ & first & Hhd & _ & Hrun); [by vm_compute|].
  exists first. split; [exact Hhd|].
  assert (first = "Acct1 / Admin") as -> by (vm_compute in Hhd; congruence).
  split; [reflexivity|]. rewrite Hrun. by vm_compute.
Defined.

Lemma PromptForRamRoleSelection_no_roles_panics_witness :
  @input.PromptForRamRoleSelection _ prompter.scripted [] ["Acct1 / Admin"]
  = (Panic "runtime error: index out of range [0] with length 0",
     ["Acct1 / Admin"]).
Proof.
  by apply (@PromptForRamRoleSelection_no_roles_panics _ prompter.scripted).
Defined.

(** ** Login details *)

Section login_details.
Import creds.

(** C9.  An empty URL is always rejected; outside the provider "Browser" an
    empty user name or an empty password is rejected as well; for "Browser" a
    non-empty URL is enough. *)
Theorem ValidateBase_Validate_spec (ld : LoginDetails) :
  (URL ld = "" → provider.Validate ld = Some (errors_New "Empty URL"))
  ∧ (Provider ld ≠ "Browser" → Username ld = "" ∨ Password ld = "" →
     is_Some (provider.Validate ld))
  ∧ (Provider ld = "Browser" → URL ld ≠ "" → provider.Validate ld = None)
  ∧ (provider.Validate ld = None ↔
     URL ld ≠ "" ∧
     (Provider ld = "Browser" ∨ (Username ld ≠ "" ∧ Password ld ≠ ""))).
Proof.
  unfold provider.Validate. destruct ld as [cid cs user pw url prov]; simpl.
  repeat split; repeat case_bool_decide; subst;
    try done; try (by eexists); try (intuition congruence).
Qed.

Lemma ValidateBase_Validate_spec_witness :
  provider.Validate (mkLoginDetails "" "" "" "" "" "Okta")
    = Some (errors_New "Empty URL")
  ∧ is_Some (provider.Validate
               (mkLoginDetails "" "" "alice" "" "https://idp" "Okta"))
  ∧ provider.Validate (mkLoginDetails "" "" "" "" "https://idp" "Browser")
    = None.
Proof.
  destruct (ValidateBase_Validate_spec (mkLoginDetails "" "" "" "" "" "Okta"))
    as (H1 & _).
  destruct (ValidateBase_Validate_spec
              (mkLoginDetails "" "" "alice" "" "https://idp" "Okta"))
    as (_ & H2 & _).
  destruct (ValidateBase_Validate_spec
              (mkLoginDetails "" "" "" "" "https://idp" "Browser"))
    as (_ & _ & H3 & _).
  split; [|split].
  - apply H1. reflexivity.
  - apply H2; [discriminate|right; reflexivity].
  - apply H3; [reflexivity|discriminate].
Defined.

End login_details.

(** ** The login prompt *)

Section login_prompt.
Import prompter input.
Context {W : Type} `{!Prompter W}.

(** C10.  For the provider "Browser" nothing is asked and nothing changes.
    Otherwise the user name is asked, then the password, then for "OneLogin"
    the client identifier and the client secret, each of the two only when
    none is stored.  An empty answer to one of the three secret prompts leaves
    the stored field as it was; a stored client identifier or secret is not
    asked again; and a stored secret is never replaced by the empty string. *)
Theorem PromptForLoginDetails_keeps_secrets
    (ld : creds.LoginDetails) (provider : string) (w : W) :
  let run := PromptForLoginDetails ld provider w in
  let ld' := run.1.1 in
  let w1 := (String "Username" (creds.Username ld) w).2 in
  let password := Password "Password" w1 in
  let w2 := password.2 in
  let clientID := Password "Client ID" w2 in
  let w3 := if bool_decide (creds.ClientID ld = "") then clientID.2 else w2 in
  let clientSecret := Password "Client Secret" w3 in
  (provider = "Browser" → run = ((ld, None), w))
  ∧ (provider ≠ "Browser" →
       (password.1 = "" → creds.Password ld' = creds.Password ld)
       ∧ (provider = "OneLogin" →
            (creds.ClientID ld ≠ "" ∨ clientID.1 = "" →
               creds.ClientID ld' = creds.ClientID ld)
            ∧ (creds.ClientSecret ld ≠ "" ∨ clientSecret.1 = "" →
                 creds.ClientSecret ld' = creds.ClientSecret ld))
       ∧ (provider ≠ "OneLogin" →
            creds.ClientID ld' = creds.ClientID ld
            ∧ creds.ClientSecret ld' = creds.ClientSecret ld))
  ∧ (creds.Password ld ≠ "" → creds.Password ld' ≠ "")
  ∧ (creds.ClientID ld ≠ "" → creds.ClientID ld' ≠ "")
  ∧ (creds.ClientSecret ld ≠ "" → creds.ClientSecret ld' ≠ "")
  ∧ run.1.2 = None.
Proof.
  unfold PromptForLoginDetails, mbind, M_bind, mret, M_ret.
  destruct ld as [cid cs user pw url prov]. simpl.
  repeat (match goal with
    | |- context [bool_decide (?x ≠ "")] =>
        is_var x; destruct (decide (x ≠ ""));
        [rewrite (bool_decide_eq_true_2 (x ≠ "")) by assumption
        |rewrite (bool_decide_eq_false_2 (x ≠ "")) by assumption]
    | |- context [bool_decide ?P] =>
        destruct (decide P);
        [rewrite (bool_decide_eq_true_2 P) by assumption
        |rewrite (bool_decide_eq_false_2 P) by assumption]
    | |- context [String ?p ?d ?w] => destruct (String p d w) as [? ?]
    | |- context [Password ?p ?w] => destruct (Password p w) as [? ?]
    end; simpl in *; subst);
    intuition (try congruence).
Qed.

End login_prompt.

Lemma PromptForLoginDetails_keeps_secrets_witness :
  (@input.PromptForLoginDetails _ prompter.scripted stored_login "Browser" []
   = ((stored_login, None), []))
  ∧ creds.Password
      (@input.PromptForLoginDetails _ prompter.scripted stored_login "Okta"
         ["bob"; ""]).1.1
    = "hunter2"
  ∧ creds.ClientSecret
      (@input.PromptForLoginDetails _ prompter.scripted
         (creds.with_ClientID "" stored_login) "OneLogin"
         ["bob"; ""; ""]).1.1
    = "secret".
Proof.
  split; [|split].
  - by apply (@PromptForLoginDetails_keeps_secrets _ prompter.scripted
                stored_login "Browser" []).
  - destruct (@PromptForLoginDetails_keeps_secrets _ prompter.scripted
                stored_login "Okta" ["bob"; ""]) as (_ & H & _).
    destruct H as (H & _); [discriminate|]. by apply H.
  - destruct (@PromptForLoginDetails_keeps_secrets _ prompter.scripted
                (creds.with_ClientID "" stored_login) "OneLogin"
                ["bob"; ""; ""]) as (_ & H & _).
    destruct H as (_ & H & _); [discriminate|].
    destruct H as (_ & H); [reflexivity|]. apply H. left. discriminate.
Defined.

(** ** The configuration file *)

Section ini_facts.
Import ini.

Lemma keys_ensure_default (f : File) (sec : string) :
  keys (ensure_default f) sec = keys f sec.
Proof.
  unfold ensure_default, keys.
  destruct (f !! DefaultSection) eqn:Hdef; [done|].
  destruct (decide (sec = DefaultSection)) as [->|Hne].
  - by rewrite lookup_insert_eq, Hdef.
  - by rewrite lookup_insert_ne.
Qed.

Lemma keys_Empty (sec : string) : keys Empty sec = ∅.
Proof.
  unfold keys, Empty. destruct (decide (sec = DefaultSection)) as [->|Hne].
  - by rewrite lookup_singleton_eq.
  - by rewrite lookup_singleton_ne.
Qed.

Lemma NewSection_Ok (f f' : File) (name sec : string) :
  NewSection f name = Ok (sec, f') →
  sec = name ∧ name ≠ "" ∧ is_Some (f' !! name)
  ∧ ∀ other, keys f' other = keys f other.
Proof.
  unfold NewSection. case_bool_decide as Hname; [done|].
  destruct (f !! name) as [ks|] eqn:Hlook; intros [= <- <-].
  - by rewrite Hlook.
  - rewrite lookup_insert_eq. repeat split; [done..|].
    intros other. unfold keys.
    destruct (decide (name = other)) as [<-|Hne].
    + by rewrite lookup_insert_eq, Hlook.
    + by rewrite lookup_insert_ne.
Qed.

Lemma GetSection_Some (f : File) (name sec : string) :
  GetSection f name = Some sec → sec = resolve name ∧ is_Some (f !! sec).
Proof.
  unfold GetSection, resolve.
  destruct (f !! _) eqn:Hlook; intros [= <-]. by rewrite Hlook.
Qed.

(** What a load returns: the sections the file holds, and the default
    section. *)
Lemma LoadSources_default (path : string) (fs : ini.filesystem)
    (f : ini.File) :
  ini.LoadSources path fs = ini.Ok f →
  is_Some (f !! ini.DefaultSection)
  ∧ ∀ sec, ini.keys f sec = stored_keys fs path sec.
Proof.
  unfold ini.LoadSources, stored_keys.
  destruct (ini.files fs !! path) as [d|].
  - destruct (ini.malformed d); [done|]. intros [= <-]. split.
    + unfold ini.ensure_default.
      destruct (ini.parsed d !! ini.DefaultSection) eqn:Hdef;
        [by rewrite Hdef|by rewrite lookup_insert_eq].
    + intros sec. apply keys_ensure_default.
  - intros [= <-]. split; [by unfold ini.Empty; rewrite lookup_singleton_eq|].
    apply keys_Empty.
Qed.

(** The owner of a key found along a chain is a section of the chain. *)
Lemma lookup_chain_owner (f : File) (key owner v : string)
    (chain : list string) :
  lookup_chain f key chain = Some (owner, v) → owner ∈ resolve <$> chain.
Proof.
  induction chain as [|name chain IH]; simpl; [done|].
  rewrite elem_of_cons. intros Hfound.
  destruct (GetSection f name) as [sec|] eqn:Hsec; [|by right; apply IH].
  apply GetSection_Some in Hsec as [-> _].
  destruct (keys f (resolve name) !! key); [|by right; apply IH].
  left. congruence.
Qed.

(** No key is found along a chain of sections without keys. *)
Lemma lookup_chain_None (f : File) (key : string) (chain : list string) :
  (∀ name, name ∈ chain → keys f (resolve name) = ∅) →
  lookup_chain f key chain = None.
Proof.
  induction chain as [|name chain IH]; simpl; [done|]. intros Hempty.
  assert (lookup_chain f key chain = None) as ->.
  { apply IH. intros n Hn. apply Hempty. by right. }
  destruct (GetSection f name) as [sec|] eqn:Hsec; [|done].
  apply GetSection_Some in Hsec as [-> _].
  rewrite (Hempty name) by left. by rewrite lookup_empty.
Qed.

Lemma SetValue_keys_ne (f : File) (sec key v other : string) :
  other ≠ sec → keys (SetValue f sec key v) other = keys f other.
Proof. intros Hne. unfold SetValue, keys at 1. by rewrite lookup_insert_ne. Qed.

Lemma SetValue_is_Some (f : File) (sec key v name : string) :
  is_Some (f !! name) → is_Some (SetValue f sec key v !! name).
Proof.
  intros Hsome. unfold SetValue. destruct (decide (sec = name)) as [->|Hne].
  - rewrite lookup_insert_eq. eauto.
  - by rewrite lookup_insert_ne.
Qed.

Section reflection.
Context {A : Type}.

(** [ReflectFrom] writes to the section and to its parents only. *)
Lemma reflect_field_keys (a : A) (sec other : string) (f : File)
    (fld : field A) :
  other ∉ sec :: (resolve <$> sec :: parents sec) →
  keys (reflect_field a sec f fld) other = keys f other.
Proof.
  intros Hother. unfold reflect_field.
  destruct (omitempty fld && isEmptyValue (get fld a)); [done|].
  destruct (GetKey f sec (tag fld)) as [[owner v]|] eqn:Hkey.
  - apply lookup_chain_owner in Hkey. apply SetValue_keys_ne.
    intros ->. apply Hother. by right.
  - apply SetValue_keys_ne. intros ->. apply Hother. by left.
Qed.

Lemma reflect_field_is_Some (a : A) (sec name : string) (f : File)
    (fld : field A) :
  is_Some (f !! name) → is_Some (reflect_field a sec f fld !! name).
Proof.
  intros Hsome. unfold reflect_field.
  destruct (omitempty fld && isEmptyValue (get fld a)); [done|].
  destruct (GetKey f sec (tag fld)) as [[owner v]|];
    by apply SetValue_is_Some.
Qed.

Lemma ReflectFrom_no_error (fields : list (field A)) (a : A) (sec : string)
    (f : File) :
  (ReflectFrom fields f sec a).1 = None.
Proof. reflexivity. Qed.

Lemma ReflectFrom_keys (fields : list (field A)) (a : A) (sec other : string)
    (f : File) :
  other ∉ sec :: (resolve <$> sec :: parents sec) →
  keys (ReflectFrom fields f sec a).2 other = keys f other.
Proof.
  intros Hother. unfold ReflectFrom. cbn [snd]. revert f.
  induction fields as [|fld fields IH]; intros f; cbn [foldl]; [done|].
  by rewrite IH, reflect_field_keys.
Qed.

Lemma ReflectFrom_is_Some (fields : list (field A)) (a : A)
    (sec name : string) (f : File) :
  is_Some (f !! name) → is_Some ((ReflectFrom fields f sec a).2 !! name).
Proof.
  unfold ReflectFrom. cbn [snd]. revert f.
  induction fields as [|fld fields IH]; intros f Hsome; cbn [foldl]; [done|].
  by apply IH, reflect_field_is_Some.
Qed.

(** [MapTo] changes nothing when the section and its parents hold no key. *)
Lemma MapTo_no_keys `{!Conv} (fields : list (field A)) (a : A) (sec : string)
    (f : File) :
  (∀ name, name ∈ sec :: parents sec → keys f (resolve name) = ∅) →
  MapTo fields f sec a = (None, a).
Proof.
  intros Hempty. unfold MapTo. f_equal.
  induction fields as [|fld fields IH]; cbn [foldl]; [done|].
  unfold map_field at 2, GetKey. by rewrite lookup_chain_None.
Qed.

End reflection.
End ini_facts.

(** ** What [ReflectFrom] stores *)

Section stored.
Import ini.

Lemma lookup_chain_no_key (f : File) (key : string) (chain : list string) :
  (∀ p, p ∈ chain → keys f (resolve p) !! key = None) →
  lookup_chain f key chain = None.
Proof.
  induction chain as [|p chain IH]; simpl; [done|]. intros Hnone.
  rewrite IH by (intros q Hq; apply Hnone; by right).
  destruct (GetSection f p) as [sec|] eqn:Hsec; [|done].
  apply GetSection_Some in Hsec as [-> _]. by rewrite (Hnone p) by left.
Qed.

(** In a file whose parent sections hold no key, [GetKey] finds the keys of
    the section itself and no other. *)
Lemma GetKey_own_section (f : File) (name key : string) :
  name ≠ "" → is_Some (f !! name) →
  (∀ q, q ∈ resolve <$> parents name → q ≠ name → keys f q = ∅) →
  GetKey f name key = (λ v, (name, v)) <$> keys f name !! key.
Proof.
  intros Hname [ks Hks] Hparents. unfold GetKey. cbn [lookup_chain].
  assert (GetSection f name = Some name) as ->.
  { unfold GetSection. rewrite bool_decide_eq_false_2 by done.
    by rewrite Hks. }
  destruct (keys f name !! key) as [v|] eqn:Hkey; [done|]. cbn.
  apply lookup_chain_no_key. intros p Hp.
  destruct (decide (resolve p = name)) as [->|Hne]; [done|].
  rewrite Hparents; [done|by apply list_elem_of_fmap_2|done].
Qed.

Lemma keys_SetValue_eq (f : File) (sec key v : string) :
  keys (SetValue f sec key v) sec = <[key := v]> (keys f sec).
Proof. unfold SetValue, keys at 1. by rewrite lookup_insert_eq. Qed.

Lemma reflect_fields_own_section (a : IDPAccount) (name : string)
    (flds : list (field IDPAccount)) (f : File) :
  name ≠ "" → is_Some (f !! name) →
  (∀ q, q ∈ resolve <$> parents name → q ≠ name → keys f q = ∅) →
  let f' := foldl (reflect_field a name) f flds in
  is_Some (f' !! name)
  ∧ keys f' name = foldl (store_field a) (keys f name) flds
  ∧ ∀ other, other ≠ name → keys f' other = keys f other.
Proof.
  intros Hname. revert f.
  induction flds as [|fld flds IH]; intros f Hsome Hparents; cbn [foldl].
  { done. }
  assert (reflect_field a name f fld =
          if skipped a fld then f
          else SetValue f name (tag fld) (Sprint (get fld a))) as Hstep.
  { unfold reflect_field, skipped.
    destruct (omitempty fld && isEmptyValue (get fld a)); [done|].
    rewrite (GetKey_own_section f name (tag fld) Hname Hsome Hparents).
    by destruct (keys f name !! tag fld). }
  assert (is_Some (reflect_field a name f fld !! name)) as Hsome'
    by by apply reflect_field_is_Some.
  assert (∀ other, other ≠ name →
            keys (reflect_field a name f fld) other = keys f other) as Hother.
  { intros other Hne. rewrite Hstep. destruct (skipped a fld); [done|].
    by apply SetValue_keys_ne. }
  destruct (IH (reflect_field a name f fld) Hsome') as (H1 & H2 & H3).
  { intros q Hq Hne. rewrite Hother by done. by apply Hparents. }
  split; [done|]. split.
  - rewrite H2. f_equal. rewrite Hstep. unfold store_field.
    destruct (skipped a fld); [done|]. apply keys_SetValue_eq.
  - intros other Hne. by rewrite H3, Hother.
Qed.

Lemma store_fields_lookup (a : IDPAccount) (flds : list (field IDPAccount))
    (ks : gmap string string) :
  NoDup (tag <$> flds) →
  (∀ fld, fld ∈ flds →
     foldl (store_field a) ks flds !! tag fld =
       if skipped a fld then ks !! tag fld
       else Some (Sprint (get fld a)))
  ∧ (∀ key, key ∉ tag <$> flds →
       foldl (store_field a) ks flds !! key = ks !! key).
Proof.
  revert ks. induction flds as [|x flds IH]; intros ks Hnodup; cbn [foldl].
  { split; [by intros fld ?%elem_of_nil|done]. }
  rewrite fmap_cons in Hnodup. apply NoDup_cons in Hnodup as [Hx Hnodup].
  destruct (IH (store_field a ks x) Hnodup) as [Hin Hout].
  assert (∀ key, key ≠ tag x → store_field a ks x !! key = ks !! key) as Hne.
  { intros key Hkey. unfold store_field. destruct (skipped a x); [done|].
    by rewrite lookup_insert_ne. }
  split.
  - intros fld [->|Hfld]%elem_of_cons.
    + rewrite Hout by done. unfold store_field.
      destruct (skipped a x); [done|]. by rewrite lookup_insert_eq.
    + rewrite Hin by done. rewrite Hne; [done|].
      intros Heq. apply Hx. rewrite <-Heq. by apply list_elem_of_fmap_2.
  - intros key Hkey. rewrite fmap_cons, not_elem_of_cons in Hkey.
    destruct Hkey as [Hkey1 Hkey2]. by rewrite Hout, Hne.
Qed.

Lemma fields_tags_NoDup : NoDup (tag <$> fields).
Proof. compute_done. Qed.

Lemma GetSection_lookup (f : File) (name : string) :
  GetSection f name = (λ _, resolve name) <$> f !! resolve name.
Proof. unfold GetSection, resolve. by destruct (f !! _). Qed.

(** Setting a key does not change where another key is found. *)
Lemma lookup_chain_SetValue_ne (f : File) (sec key' v' key : string)
    (chain : list string) :
  key ≠ key' →
  lookup_chain (SetValue f sec key' v') key chain = lookup_chain f key chain.
Proof.
  intros Hne. induction chain as [|n chain IH]; simpl; [done|].
  rewrite IH, !GetSection_lookup.
  destruct (decide (resolve n = sec)) as [Heq|Hother].
  - rewrite Heq. unfold SetValue at 1. rewrite lookup_insert_eq. cbn.
    rewrite keys_SetValue_eq, lookup_insert_ne by congruence.
    unfold keys. destruct (f !! sec) as [ks|] eqn:Hf; cbn; rewrite ?Hf; cbn;
      [done|].
    by rewrite lookup_empty.
  - unfold SetValue at 1. rewrite lookup_insert_ne by done.
    destruct (f !! resolve n); cbn; [|done].
    by rewrite SetValue_keys_ne.
Qed.

(** Setting a key at its owner: the key is found there, with the new value. *)
Lemma lookup_chain_SetValue_owner (f : File) (key owner v0 v : string)
    (chain : list string) :
  lookup_chain f key chain = Some (owner, v0) →
  lookup_chain (SetValue f owner key v) key chain = Some (owner, v).
Proof.
  induction chain as [|n chain IH]; simpl; [done|].
  rewrite !GetSection_lookup.
  destruct (decide (resolve n = owner)) as [Heq|Hother].
  - rewrite Heq. unfold SetValue at 1. rewrite lookup_insert_eq. cbn.
    by rewrite keys_SetValue_eq, lookup_insert_eq.
  - unfold SetValue at 1. rewrite lookup_insert_ne by done.
    destruct (f !! resolve n); cbn; [|done].
    rewrite SetValue_keys_ne by done.
    destruct (keys f (resolve n) !! key); [|done].
    by intros [= ? ?].
Qed.

(** Setting a new key of the section: the key is found in the section. *)
Lemma GetKey_SetValue_new (f : File) (name key v : string) :
  name ≠ "" → GetKey (SetValue f name key v) name key = Some (name, v).
Proof.
  intros Hname. unfold GetKey. cbn [lookup_chain].
  rewrite GetSection_lookup.
  replace (resolve name) with name
    by (unfold resolve; by rewrite bool_decide_eq_false_2).
  unfold SetValue at 1. rewrite lookup_insert_eq. cbn.
  by rewrite keys_SetValue_eq, lookup_insert_eq.
Qed.

(** After a field is reflected, [GetKey] finds its printed value. *)
Lemma reflect_field_GetKey (a : IDPAccount) (name : string) (f : File)
    (fld : field IDPAccount) :
  name ≠ "" → skipped a fld = false →
  ∃ owner,
    GetKey (reflect_field a name f fld) name (tag fld)
    = Some (owner, Sprint (get fld a)).
Proof.
  intros Hname Hskip. unfold reflect_field.
  unfold skipped in Hskip. rewrite Hskip.
  destruct (GetKey f name (tag fld)) as [[owner v0]|] eqn:Hkey.
  - exists owner. by apply lookup_chain_SetValue_owner with v0.
  - exists name. by apply GetKey_SetValue_new.
Qed.

(** Reflecting a field leaves the keys of the other tags where they were. *)
Lemma reflect_field_GetKey_ne (a : IDPAccount) (name key : string) (f : File)
    (fld : field IDPAccount) :
  key ≠ tag fld →
  GetKey (reflect_field a name f fld) name key = GetKey f name key.
Proof.
  intros Hne. unfold reflect_field.
  destruct (omitempty fld && isEmptyValue (get fld a)); [done|].
  destruct (GetKey f name (tag fld)) as [[owner v0]|];
    by apply lookup_chain_SetValue_ne.
Qed.

Lemma reflect_fields_GetKey_ne (a : IDPAccount) (name key : string)
    (flds : list (field IDPAccount)) (f : File) :
  key ∉ tag <$> flds →
  GetKey (foldl (reflect_field a name) f flds) name key = GetKey f name key.
Proof.
  revert f. induction flds as [|x flds IH]; intros f Hkey; cbn [foldl];
    [done|].
  rewrite fmap_cons, not_elem_of_cons in Hkey. destruct Hkey as [Hx Hkey].
  by rewrite IH, reflect_field_GetKey_ne.
Qed.

(** After [ReflectFrom], [GetKey] finds the printed value of every field that
    is not skipped, in the section or in one of its parents. *)
Lemma reflect_fields_GetKey (a : IDPAccount) (name : string)
    (flds : list (field IDPAccount)) (f : File) (fld : field IDPAccount) :
  name ≠ "" → NoDup (tag <$> flds) →
  fld ∈ flds → skipped a fld = false →
  ∃ owner,
    owner ∈ lineage name
    ∧ GetKey (foldl (reflect_field a name) f flds) name (tag fld)
      = Some (owner, Sprint (get fld a)).
Proof.
  intros Hname Hnodup Hfld Hskip.
  assert (∃ owner,
            GetKey (foldl (reflect_field a name) f flds) name (tag fld)
            = Some (owner, Sprint (get fld a))) as [owner Howner].
  { revert f Hnodup Hfld.
    induction flds as [|x flds IH]; intros f Hnodup Hfld; cbn [foldl].
    { by apply elem_of_nil in Hfld. }
    rewrite fmap_cons in Hnodup. apply NoDup_cons in Hnodup as [Hx Hnodup].
    apply elem_of_cons in Hfld as [->|Hfld]; [|by apply IH].
    rewrite reflect_fields_GetKey_ne by done.
    by apply reflect_field_GetKey. }
  exists owner. split; [|done].
  unfold GetKey in Howner. apply lookup_chain_owner in Howner.
  rewrite fmap_cons in Howner. unfold lineage. by rewrite fmap_cons.
Qed.

Lemma ReflectFrom_GetKey (a : IDPAccount) (name : string)
    (flds : list (field IDPAccount)) (f : File) (fld : field IDPAccount) :
  name ≠ "" → NoDup (tag <$> flds) →
  fld ∈ flds → skipped a fld = false →
  ∃ owner,
    owner ∈ lineage name
    ∧ GetKey (ReflectFrom flds f name a).2 name (tag fld)
      = Some (owner, Sprint (get fld a)).
Proof. apply reflect_fields_GetKey. Qed.

(** In a file whose parent sections hold no key, the section holds the
    printed value of every field that is not skipped. *)
Lemma ReflectFrom_own_section (a : IDPAccount) (name : string)
    (flds : list (field IDPAccount)) (f : File) (fld : field IDPAccount) :
  name ≠ "" → is_Some (f !! name) → NoDup (tag <$> flds) →
  (∀ q, q ∈ resolve <$> parents name → keys f q = ∅) →
  fld ∈ flds → skipped a fld = false →
  keys (ReflectFrom flds f name a).2 name !! tag fld
  = Some (Sprint (get fld a)).
Proof.
  intros Hname Hsome Hnodup Hparents Hfld Hskip.
  destruct (reflect_fields_own_section a name flds f Hname Hsome)
    as (_ & Hkeys & _); [by intros q Hq _; apply Hparents|].
  unfold ReflectFrom. cbn [snd]. rewrite Hkeys.
  destruct (store_fields_lookup a flds (keys f name) Hnodup) as [Hin _].
  by rewrite (Hin fld Hfld), Hskip.
Qed.

Lemma url_field_in_fields : string_field "url" false URL with_URL ∈ fields.
Proof. unfold fields. apply list_elem_of_further, list_elem_of_here. Qed.

End stored.

(** ** Validation of an account *)

Section validation.
Context `{!NetURL}.

(** [Validate] reports a field that is at fault, and reports none only when
    none is. *)
Lemma Validate_spec (ia : IDPAccount) :
  match Validate ia with
  | Some err => ∃ p, offends ia p ∧ err = errors_New (message p)
  | None => ∀ p, ¬ offends ia p
  end.
Proof.
  unfold Validate, validate_provider_fields.
  repeat case_bool_decide;
    try (by exists AppID_empty; simpl; auto);
    try (by exists Subdomain_empty);
    try (by exists ResourceID_empty);
    try (by exists URL_empty);
    try (destruct (url_Parse (URL ia)) as [e|] eqn:Hparse;
         [by exists URL_unparsable; simpl; rewrite Hparse; eauto|]);
    repeat case_bool_decide;
    try (by exists Provider_empty);
    try (by exists MFA_empty);
    try (by exists Profile_empty);
    intros []; simpl; rewrite ?Hparse;
    try (intros [? ?]; congruence); try congruence;
    try (intros [[?|?] ?]; congruence).
Qed.

(** C5.  An account at fault in one of the listed ways is refused with the
    validation error that names a field at fault, whatever the manager, the
    section name and the file system, which is left as it was; an account at
    fault in none is never refused with a validation error, and is written
    whenever the file loads, the section name is not empty and the path can
    be written: the file saved has the section of that name, [GetKey] finds
    there the printed value of every field that [omitempty] does not skip (in
    the section or in the parent section that had the key), and the section
    itself holds these values when its parent sections held no key. *)
Theorem SaveIDPAccount_validates_first (ia : IDPAccount) :
  ((∃ p, offends ia p) →
     ∃ p, offends ia p ∧
       ∀ cm name fs,
         SaveIDPAccount cm name ia fs =
           (Some (errors_Wrap (errors_New (message p))
                    "Account validation failed"), fs))
  ∧ ((∀ p, ¬ offends ia p) →
       ∀ cm name fs,
         (∀ e, (SaveIDPAccount cm name ia fs).1 = Some e →
            ∃ cause msg,
              e = errors_Wrap cause msg ∧ msg ≠ "Account validation failed")
         ∧ ((∀ d, ini.files fs !! configPath cm = Some d →
                  ini.malformed d = None) →
            name ≠ "" →
            ini.write_error fs !! configPath cm = None →
            ∃ fs' d,
              SaveIDPAccount cm name ia fs = (None, fs')
              ∧ ini.files fs' !! configPath cm = Some d
              ∧ ini.malformed d = None
              ∧ is_Some (ini.parsed d !! name)
              ∧ (∀ fld, fld ∈ fields → skipped ia fld = false →
                   ∃ owner,
                     owner ∈ lineage name
                     ∧ ini.GetKey (ini.parsed d) name (ini.tag fld)
                       = Some (owner, ini.Sprint (ini.get fld ia)))
              ∧ ((∀ q, q ∈ resolve <$> ini.parents name →
                       stored_keys fs (configPath cm) q = ∅) →
                 ∀ fld, fld ∈ fields → skipped ia fld = false →
                   ini.keys (ini.parsed d) name !! ini.tag fld
                   = Some (ini.Sprint (ini.get fld ia))))).
Proof.
  pose proof (Validate_spec ia) as Hspec. split.
  - intros [p Hp]. destruct (Validate ia) as [err|] eqn:Hvalid.
    + destruct Hspec as (p' & Hp' & ->). exists p'. split; [done|].
      intros cm name fs. unfold SaveIDPAccount. by rewrite Hvalid.
    + by destruct (Hspec p).
  - intros Hnone cm name fs.
    destruct (Validate ia) as [err|] eqn:Hvalid.
    { destruct Hspec as (p & Hp & _). by destruct (Hnone p). }
    unfold SaveIDPAccount. rewrite Hvalid. split.
    + intros e.
      destruct (ini.LoadSources _ _) as [cfg|err];
        [|cbn [fst]; intros [= <-]; by eexists _, _].
      destruct (ini.NewSection _ _) as [[sec cfg']|err];
        [|cbn [fst]; intros [= <-]; by eexists _, _].
      destruct (ini.ReflectFrom fields cfg' sec ia) as [[err|] cfg''];
        [cbn [fst]; intros [= <-]; by eexists _, _|].
      destruct (ini.SaveTo _ _ _) as [[err|] fs']; cbn [fst];
        [|intros; discriminate].
      intros [= <-]. by eexists _, _.
    + intros Hparses Hname Hwrite.
      assert (∃ cfg, ini.LoadSources (configPath cm) fs = ini.Ok cfg)
        as [cfg Hload].
      { unfold ini.LoadSources.
        destruct (ini.files fs !! configPath cm) as [d|]; [|by eexists].
        rewrite (Hparses d eq_refl). by eexists. }
      rewrite Hload. apply LoadSources_default in Hload as [_ Hcfg].
      destruct (ini.NewSection cfg name) as [[sec cfg']|err] eqn:Hnew.
      2:{ unfold ini.NewSection in Hnew.
          rewrite bool_decide_eq_false_2 in Hnew by done.
          by destruct (cfg !! name). }
      apply NewSection_Ok in Hnew as (-> & _ & Hsec & Hcfg').
      pose proof (ReflectFrom_is_Some fields ia name name cfg' Hsec) as Hsec'.
      pose proof (ReflectFrom_no_error fields ia name cfg') as Hok.
      pose proof (λ fld, ReflectFrom_GetKey ia name fields cfg' fld Hname
                           fields_tags_NoDup) as Hget.
      pose proof (λ Hparents fld,
                    ReflectFrom_own_section ia name fields cfg' fld Hname
                      Hsec fields_tags_NoDup Hparents) as Hown.
      destruct (ini.ReflectFrom fields cfg' name ia) as [r cfg''].
      cbn [fst snd] in Hok, Hsec', Hget, Hown. subst r.
      unfold ini.SaveTo. rewrite Hwrite.
      exists (ini.mkFilesystem
                (<[configPath cm := ini.mkOnDisk cfg'' None]> (ini.files fs))
                (ini.write_error fs)), (ini.mkOnDisk cfg'' None).
      split; [reflexivity|]. cbn [ini.files ini.malformed ini.parsed].
      rewrite lookup_insert_eq.
      split; [done|]. split; [done|]. split; [done|]. split; [done|].
      intros Hparents. apply Hown.
      intros q Hq. by rewrite Hcfg', Hcfg, Hparents.
Qed.

(** C6, amended.  A save that succeeds leaves the keys of every section of the
    file as they were, except the section saved and its parent sections; it
    touches no other file; a missing file does not make the save fail on
    load; a file that the parser rejects makes the save of an account that
    passes validation fail with the error of the parser, wrapped in "Unable
    to load configuration file", and the file system is left as it was; and a
    save fails with that message on such a file only. *)
Theorem SaveIDPAccount_keeps_other_sections (cm : ConfigManager)
    (name : string) (account : IDPAccount) (fs : ini.filesystem) :
  (∀ fs', SaveIDPAccount cm name account fs = (None, fs') →
     (∀ other, other ∉ lineage name →
        stored_keys fs' (configPath cm) other
        = stored_keys fs (configPath cm) other)
     ∧ (∀ path, path ≠ configPath cm →
          ini.files fs' !! path = ini.files fs !! path)
     ∧ ini.write_error fs' = ini.write_error fs)
  ∧ (ini.files fs !! configPath cm = None →
     ∀ cause, (SaveIDPAccount cm name account fs).1
              ≠ Some (errors_Wrap cause "Unable to load configuration file"))
  ∧ (Validate account = None →
     ∀ d e, ini.files fs !! configPath cm = Some d →
            ini.malformed d = Some e →
            SaveIDPAccount cm name account fs
            = (Some (errors_Wrap e "Unable to load configuration file"), fs))
  ∧ (∀ cause,
       (SaveIDPAccount cm name account fs).1
       = Some (errors_Wrap cause "Unable to load configuration file") →
       ∃ d, ini.files fs !! configPath cm = Some d
            ∧ ini.malformed d = Some cause).
Proof.
  unfold SaveIDPAccount. split; [|split; [|split]].
  - intros fs'. destruct (Validate account); [done|].
    destruct (ini.LoadSources _ _) as [cfg|err] eqn:Hload; [|done].
    destruct (ini.NewSection _ _) as [[sec cfg']|err] eqn:Hnew; [|done].
    apply NewSection_Ok in Hnew as (-> & Hname & _ & Hnewkeys).
    pose proof (ReflectFrom_keys fields account name) as Hframe.
    specialize (λ other, Hframe other cfg').
    destruct (ini.ReflectFrom fields cfg' name account) as [[err|] cfg''];
      [done|]. cbn [snd] in Hframe.
    unfold ini.SaveTo.
    destruct (ini.write_error fs !! configPath cm); [done|].
    intros [= <-]. cbn [ini.files ini.write_error].
    split; [|split; [|done]].
    + intros other Hother. unfold stored_keys at 1. cbn [ini.files].
      rewrite lookup_insert_eq. cbn [ini.parsed].
      rewrite Hframe, Hnewkeys.
      * unfold stored_keys, ini.LoadSources in *.
        destruct (ini.files fs !! configPath cm) as [d|].
        -- destruct (ini.malformed d); [done|].
           injection Hload as <-. apply keys_ensure_default.
        -- injection Hload as <-. apply keys_Empty.
      * intros [->|Hin]%elem_of_cons; [|done].
        apply Hother. unfold lineage. rewrite fmap_cons.
        replace (resolve name) with name; [left|].
        unfold resolve. by rewrite bool_decide_eq_false_2.
    + intros path Hpath. by rewrite lookup_insert_ne.
  - intros Hmissing cause. destruct (Validate account); [done|].
    unfold ini.LoadSources. rewrite Hmissing.
    destruct (ini.NewSection _ _) as [[sec cfg']|err]; [|done].
    destruct (ini.ReflectFrom fields cfg' sec account) as [[err|] cfg''];
      [done|].
    by destruct (ini.SaveTo _ _ _) as [[err|] fs'].
  - intros -> d e Hd He. unfold ini.LoadSources. by rewrite Hd, He.
  - intros cause. destruct (Validate account); [done|].
    unfold ini.LoadSources.
    destruct (ini.files fs !! configPath cm) as [d|].
    + destruct (ini.malformed d) as [e|] eqn:He;
        [intros [= <-]; by exists d|].
      destruct (ini.NewSection _ _) as [[sec cfg']|err]; [|done].
      destruct (ini.ReflectFrom fields cfg' sec account) as [[err|] cfg''];
        [done|].
      by destruct (ini.SaveTo _ _ _) as [[err|] fs'].
    + destruct (ini.NewSection _ _) as [[sec cfg']|err]; [|done].
      destruct (ini.ReflectFrom fields cfg' sec account) as [[err|] cfg''];
        [done|].
      by destruct (ini.SaveTo _ _ _) as [[err|] fs'].
Qed.

End validation.

Section validation_examples.

Lemma onelogin_complete_offends_nothing (p : problem) :
  ¬ @offends no_newline_URL (onelogin_account "app" "example") p.
Proof.
  destruct p; vm_compute;
    first [ intros [e He]; first [discriminate He | discriminate e]
          | intros He; discriminate He ].
Qed.

Lemma SaveIDPAccount_validates_first_witness :
  (∃ p, @offends no_newline_URL (onelogin_account "" "example") p
        ∧ @SaveIDPAccount no_newline_URL the_manager "work"
            (onelogin_account "" "example") no_files
          = (Some (errors_Wrap (errors_New (message p))
                     "Account validation failed"), no_files))
  ∧ (∃ fs' d,
       @SaveIDPAccount no_newline_URL the_manager "work"
         (onelogin_account "app" "example") no_files = (None, fs')
       ∧ ini.files fs' !! configPath the_manager = Some d
       ∧ ini.malformed d = None
       ∧ is_Some (ini.parsed d !! "work")
       ∧ ini.keys (ini.parsed d) "work" !! "url"
         = Some "https://example.onelogin.com/saml").
Proof.
  split.
  - destruct (@SaveIDPAccount_validates_first no_newline_URL
                (onelogin_account "" "example")) as [Hbad _].
    destruct Hbad as (p & Hp & Hsave).
    { exists AppID_empty. split; [by left|reflexivity]. }
    exists p. split; [exact Hp|apply Hsave].
  - destruct (@SaveIDPAccount_validates_first no_newline_URL
                (onelogin_account "app" "example")) as [_ Hgood].
    destruct (Hgood onelogin_complete_offends_nothing the_manager "work"
                no_files) as [_ Hwritten].
    destruct Hwritten as (fs' & d & Hsave & Hd & Hmal & Hsec & _ & Hown);
      [|discriminate|reflexivity|].
    { intros d Hd. vm_compute in Hd. discriminate Hd. }
    exists fs', d. repeat (split; [assumption|]).
    apply (Hown ltac:(intros q Hq; vm_compute in Hq;
                      by apply elem_of_nil in Hq)
             _ url_field_in_fields eq_refl).
Defined.

(** C6 as stated fails: a file that the parser rejects makes the save fail on
    load, although the part of it that parses holds the section "work". *)
Lemma SaveIDPAccount_damaged_file_fails_on_load :
  stored_keys damaged_file (configPath the_manager) "work" = work_section
  ∧ (@SaveIDPAccount no_newline_URL the_manager "home"
       (okta_account "https://home.example.com" "home") damaged_file).1
    = Some (errors_Wrap
              (errors_New "key-value delimiter not found: garbage")
              "Unable to load configuration file").
Proof. split; vm_compute; reflexivity. Qed.

Lemma SaveIDPAccount_keeps_other_sections_witness :
  stored_keys
    (@SaveIDPAccount no_newline_URL the_manager "home"
       (okta_account "https://home.example.com" "home") work_file).2
    (configPath the_manager) "work"
  = stored_keys work_file (configPath the_manager) "work"
  ∧ (∀ cause,
      (@SaveIDPAccount no_newline_URL the_manager "home"
         (okta_account "https://home.example.com" "home") no_files).1
      ≠ Some (errors_Wrap cause "Unable to load configuration file"))
  ∧ @SaveIDPAccount no_newline_URL the_manager "home"
      (okta_account "https://home.example.com" "home") damaged_file
    = (Some (errors_Wrap
               (errors_New "key-value delimiter not found: garbage")
               "Unable to load configuration file"), damaged_file).
Proof.
  split; [|split].
  - destruct (@SaveIDPAccount_keeps_other_sections no_newline_URL the_manager
                "home" (okta_account "https://home.example.com" "home")
                work_file) as [Hframe _].
    apply (Hframe _); [vm_compute; reflexivity|compute_done].
  - destruct (@SaveIDPAccount_keeps_other_sections no_newline_URL the_manager
                "home" (okta_account "https://home.example.com" "home")
                no_files) as (_ & Hmissing & _).
    apply Hmissing. reflexivity.
  - destruct (@SaveIDPAccount_keeps_other_sections no_newline_URL the_manager
                "home" (okta_account "https://home.example.com" "home")
                damaged_file) as (_ & _ & Hrejected & _).
    eapply Hrejected; vm_compute; reflexivity.
Defined.

(** Outside C6 as amended: a save under the name of a child section writes the
    fields to the keys its parent section already has, and a later load of
    the parent returns them. *)
Example SaveIDPAccount_child_writes_to_parent :
  let saved :=
    @SaveIDPAccount no_newline_URL the_manager "work.dev"
      (okta_account "https://dev.example.com" "dev") work_file in
  saved.1 = None
  ∧ stored_keys work_file (configPath the_manager) "work" !! "url"
    = Some "https://work.example.com"
  ∧ stored_keys saved.2 (configPath the_manager) "work" !! "url"
    = Some "https://dev.example.com"
  ∧ stored_keys saved.2 (configPath the_manager) "work.dev" !! "url" = None.
Proof. by vm_compute. Qed.

End validation_examples.

(** ** Loading an account *)

Section loading.
Context `{!ini.Conv}.

Lemma Section_resolve (f f' : ini.File) (name sec : string) :
  is_Some (f !! ini.DefaultSection) →
  ini.Section_ f name = (sec, f') →
  sec = resolve name ∧ ∀ other, ini.keys f' other = ini.keys f other.
Proof.
  intros Hdef. unfold ini.Section_.
  destruct (ini.GetSection f name) as [s|] eqn:Hget.
  - intros [= <- <-]. by apply GetSection_Some in Hget as [-> _].
  - destruct (ini.NewSection f name) as [[s f'']|err] eqn:Hnew.
    + intros [= <- <-]. apply NewSection_Ok in Hnew as (-> & Hname & _ & Hkeys).
      split; [|done]. unfold resolve. by rewrite bool_decide_eq_false_2.
    + exfalso. unfold ini.NewSection in Hnew. case_bool_decide as Hname.
      * subst name. unfold ini.GetSection in Hget.
        rewrite bool_decide_eq_true_2 in Hget by done.
        destruct Hdef as [ks Hks]. by rewrite Hks in Hget.
      * by destruct (f !! name).
Qed.

Lemma chain_in_lineage (name n : string) :
  n ∈ resolve name :: ini.parents (resolve name) → resolve n ∈ lineage name.
Proof.
  unfold lineage. destruct (decide (name = "")) as [->|Hname].
  - intros Hn. vm_compute in Hn. apply list_elem_of_singleton in Hn as ->.
    vm_compute. left.
  - replace (resolve name) with name
      by (unfold resolve; by rewrite bool_decide_eq_false_2).
    apply list_elem_of_fmap_2.
Qed.

(** When [LoadIDPAccount] does return the default account: it returns no error
    unless the parser rejects the file; on a missing file it returns the
    default account for every name; and on a file in which neither the section
    of that name nor any of its parent sections holds a key it returns the
    default account. *)
Theorem LoadIDPAccount_defaults (cm : ConfigManager) (name : string)
    (fs : ini.filesystem) :
  (ini.files fs !! configPath cm = None →
     LoadIDPAccount cm name fs = ini.Ok NewIDPAccount)
  ∧ ((∀ sec, sec ∈ lineage name → stored_keys fs (configPath cm) sec = ∅) →
     (∀ d, ini.files fs !! configPath cm = Some d → ini.malformed d = None) →
     LoadIDPAccount cm name fs = ini.Ok NewIDPAccount)
  ∧ ((∀ d, ini.files fs !! configPath cm = Some d → ini.malformed d = None) →
     ∃ account, LoadIDPAccount cm name fs = ini.Ok account).
Proof.
  assert ((∀ sec, sec ∈ lineage name →
             stored_keys fs (configPath cm) sec = ∅) →
          (∀ d, ini.files fs !! configPath cm = Some d →
                ini.malformed d = None) →
          LoadIDPAccount cm name fs = ini.Ok NewIDPAccount) as Hmain.
  { intros Hempty Hparses. unfold LoadIDPAccount, readAccount.
    destruct (ini.LoadSources (configPath cm) fs) as [cfg|err] eqn:Hload.
    2:{ unfold ini.LoadSources in Hload.
        destruct (ini.files fs !! configPath cm) as [d|]; [|done].
        by rewrite (Hparses d eq_refl) in Hload. }
    apply LoadSources_default in Hload as [Hdef Hkeys].
    destruct (ini.Section_ cfg name) as [sec cfg'] eqn:Hsec.
    apply Section_resolve in Hsec as [-> Hsame]; [|done].
    rewrite MapTo_no_keys; [done|].
    intros n Hn%chain_in_lineage. by rewrite Hsame, Hkeys, Hempty. }
  split; [|split; [exact Hmain|]].
  - intros Hmissing. apply Hmain.
    + intros sec _. unfold stored_keys. by rewrite Hmissing.
    + intros d Hd. congruence.
  - intros Hparses. unfold LoadIDPAccount, readAccount.
    destruct (ini.LoadSources (configPath cm) fs) as [cfg|err] eqn:Hload.
    2:{ unfold ini.LoadSources in Hload.
        destruct (ini.files fs !! configPath cm) as [d|]; [|done].
        by rewrite (Hparses d eq_refl) in Hload. }
    destruct (ini.Section_ cfg name) as [sec cfg'].
    destruct (ini.MapTo fields cfg' sec NewIDPAccount) as [[err|] account]
      eqn:Hmap; [|by eexists].
    apply (f_equal fst) in Hmap. discriminate Hmap.
Qed.

End loading.

Lemma LoadIDPAccount_defaults_witness :
  @LoadIDPAccount ini.plain_Conv the_manager "home" no_files
    = ini.Ok NewIDPAccount
  ∧ @LoadIDPAccount ini.plain_Conv the_manager "home" work_file
    = ini.Ok NewIDPAccount.
Proof.
  destruct (@LoadIDPAccount_defaults ini.plain_Conv the_manager "home"
              no_files) as [Hmissing _].
  destruct (@LoadIDPAccount_defaults ini.plain_Conv the_manager "home"
              work_file) as (_ & Hlacks & _).
  split.
  - apply Hmissing. reflexivity.
  - apply Hlacks.
    + intros sec Hsec. vm_compute in Hsec.
      apply list_elem_of_singleton in Hsec as ->. by vm_compute.
    + intros d Hd. vm_compute in Hd. by injection Hd as <-.
Defined.

(** C7: a file that has a section "work" and no section "work.dev".  The
    account loaded under the name "work.dev" is not the default account: it
    takes the keys of the parent section "work", and its profile is "prod"
    where the default is "saml". *)
Theorem LoadIDPAccount_inherits_from_parent :
  ini.GetSection (ini.ensure_default work_sections) "work.dev" = None
  ∧ ∃ account,
      @LoadIDPAccount ini.plain_Conv the_manager "work.dev" work_file
        = ini.Ok account
      ∧ Profile account = "prod"
      ∧ Profile NewIDPAccount = "saml".
Proof.
  split; [by vm_compute|]. eexists. split; [by vm_compute|]. by split.
Qed.

(** * Further properties of the registry *)

Section registry_more.

Lemma elem_of_table_keys (m : ProviderList) (provider : string) :
  provider ∈ (map_to_list m).*1 ↔ is_Some (m !! provider).
Proof.
  rewrite list_elem_of_fmap. split.
  - intros [[k l] [-> Hin%elem_of_map_to_list]]. by exists l.
  - intros [l Hl]. exists (provider, l). by rewrite elem_of_map_to_list.
Qed.

Lemma elem_of_Names (m : ProviderList) (provider : string) :
  provider ∈ Names m ↔ is_Some (m !! provider).
Proof.
  unfold Names. by rewrite sort_Strings_Permutation, elem_of_table_keys.
Qed.

(** [Names] lists the keys of the table, each once, in increasing order, and
    depends on the keys only. *)
Theorem Names_keys_sorted (mfbp : ProviderList) :
  Sorted String.le (Names mfbp)
  ∧ NoDup (Names mfbp)
  ∧ (∀ provider, provider ∈ Names mfbp ↔ is_Some (mfbp !! provider))
  ∧ (∀ mfbp' : ProviderList,
       (∀ provider, is_Some (mfbp' !! provider) ↔ is_Some (mfbp !! provider))
       → Names mfbp' = Names mfbp).
Proof.
  split; [apply sort_Strings_Sorted|]. split; [|split].
  - unfold Names. rewrite sort_Strings_Permutation.
    apply NoDup_fst_map_to_list.
  - apply elem_of_Names.
  - intros mfbp' Hsame. unfold Names.
    apply sort_Strings_unique; [apply sort_Strings_Sorted|].
    rewrite sort_Strings_Permutation. apply NoDup_Permutation.
    + apply NoDup_fst_map_to_list.
    + apply NoDup_fst_map_to_list.
    + intros provider. by rewrite !elem_of_table_keys.
Qed.

Lemma Names_keys_sorted_witness :
  Names (Mfas "Okta" MFAsByProvider).2 = Names MFAsByProvider.
Proof.
  apply (Names_keys_sorted MFAsByProvider). intros provider.
  unfold Mfas. change (MFAsByProvider !! "Okta") with
    (Some ["Auto"; "PUSH"; "DUO"; "SMS"; "TOTP"; "OKTA"; "FIDO";
           "YUBICO TOKEN:HARDWARE"]).
  cbn [snd]. destruct (decide ("Okta" = provider)) as [<-|Hne].
  - rewrite lookup_insert_eq. split; intros _; by eexists.
  - by rewrite lookup_insert_ne.
Defined.

(** [Mfas] returns the identifiers of the provider in increasing order, an
    empty slice for a name without entry; it changes no other entry of the
    table, and a second call returns the same slice and leaves the table as
    the first call left it. *)
Theorem Mfas_sorted_idempotent (provider : string) (tbl : ProviderList) :
  let mfas := (Mfas provider tbl).1 in
  let tbl' := (Mfas provider tbl).2 in
  Sorted String.le mfas
  ∧ mfas ≡ₚ default [] (tbl !! provider)
  ∧ (tbl !! provider = None → mfas = [] ∧ tbl' = tbl)
  ∧ (∀ other, other ≠ provider → tbl' !! other = tbl !! other)
  ∧ Mfas provider tbl' = (mfas, tbl').
Proof.
  unfold Mfas. destruct (tbl !! provider) as [l|] eqn:Hlook; cbn [fst snd].
  - split; [apply sort_Strings_Sorted|].
    split; [apply sort_Strings_Permutation|].
    split; [done|]. split.
    + intros other Hne. by rewrite lookup_insert_ne.
    + rewrite lookup_insert_eq, sort_Strings_idemp.
      by rewrite insert_insert_eq.
  - rewrite Hlook. repeat split; try done; constructor.
Qed.

(** [invalidMFA] answers "valid" ([false]) exactly when the table, in its
    current state, has an entry for the provider that holds the MFA; a provider
    without entry has no valid MFA. *)
Theorem invalidMFA_false_iff (provider mfa : string) (tbl : ProviderList) :
  (invalidMFA provider mfa tbl).1 = false
  ↔ ∃ mfas, tbl !! provider = Some mfas ∧ mfa ∈ mfas.
Proof.
  unfold invalidMFA, Mfas.
  destruct (tbl !! provider) as [l|]; cbn [fst].
  - rewrite stringInSlice_elem_of, negb_false_iff, bool_decide_eq_true.
    rewrite sort_Strings_Permutation. split; [by exists l|].
    by intros (? & [= <-] & ?).
  - split; [done|]. by intros (? & ? & ?).
Qed.

(** The table after a resolution: as it was, or as [Mfas] leaves it. *)
Lemma NewSAMLClient_table (tbl : ProviderList) (ia : IDPAccount) :
  (NewSAMLClient ia tbl).2 = tbl
  ∨ (NewSAMLClient ia tbl).2 = (Mfas (Provider ia) tbl).2.
Proof.
  unfold NewSAMLClient, unchecked.
  repeat (case_bool_decide; [first [by right; apply checked_table | by left]|]).
  by left.
Qed.

Lemma Mfas_other (provider other : string) (tbl : ProviderList) :
  other ≠ provider → (Mfas provider tbl).2 !! other = tbl !! other.
Proof.
  intros Hne. unfold Mfas. destruct (tbl !! provider); cbn [snd]; [|done].
  by rewrite lookup_insert_ne.
Qed.

Lemma invalidMFA_history (provider mfa : string) (tbl : ProviderList) :
  reordered tbl →
  (invalidMFA provider mfa tbl).1 = (invalidMFA provider mfa MFAsByProvider).1.
Proof.
  intros Htbl. unfold invalidMFA, Mfas. pose proof (Htbl provider) as Hp.
  destruct Hp as [l l' Hperm|]; cbn [fst]; [|done].
  rewrite !stringInSlice_elem_of. f_equal. apply bool_decide_ext.
  by rewrite !sort_Strings_Permutation, Hperm.
Qed.

Lemma checked_history (pkg : provider_pkg) (ia : IDPAccount)
    (tbl : ProviderList) :
  reordered tbl → (checked pkg ia tbl).1 = (checked pkg ia MFAsByProvider).1.
Proof.
  intros Htbl. unfold checked.
  pose proof (invalidMFA_history (Provider ia) (MFA ia) tbl Htbl) as Hsame.
  destruct (invalidMFA _ _ tbl) as [invalid tbl'].
  destruct (invalidMFA _ _ MFAsByProvider) as [invalid' tbl''].
  cbn [fst] in Hsame. subst invalid'. by destruct invalid.
Qed.

(** The outcome of a resolution does not depend on the resolutions made
    before it: in every table that earlier calls can have left, the outcome is
    the one in the initial table; and a resolution changes no entry of the
    table but, at most, the order of the entry of its own provider. *)
Theorem NewSAMLClient_independent_of_history (tbl : ProviderList)
    (ia : IDPAccount) :
  reordered tbl →
  (NewSAMLClient ia tbl).1 = (NewSAMLClient ia MFAsByProvider).1
  ∧ (∀ other, other ≠ Provider ia →
       (NewSAMLClient ia tbl).2 !! other = tbl !! other)
  ∧ option_Forall2 Permutation
      ((NewSAMLClient ia tbl).2 !! Provider ia) (tbl !! Provider ia).
Proof.
  intros Htbl. split; [|split].
  - unfold NewSAMLClient, unchecked.
    repeat (case_bool_decide; [first [by apply checked_history | done]|]).
    done.
  - intros other Hother.
    destruct (NewSAMLClient_table tbl ia) as [->| ->]; [done|].
    by apply Mfas_other.
  - destruct (NewSAMLClient_table tbl ia) as [->| ->].
    + destruct (tbl !! Provider ia); by constructor.
    + unfold Mfas. destruct (tbl !! Provider ia) as [l|] eqn:Hl; cbn [snd].
      * rewrite lookup_insert_eq. constructor. apply sort_Strings_Permutation.
      * rewrite Hl. constructor.
Qed.

Lemma NewSAMLClient_independent_of_history_witness :
  (NewSAMLClient (account_for "AzureAD" "OneWaySMS")
     (NewSAMLClient (account_for "AzureAD" "Auto") MFAsByProvider).2).1
  = (NewSAMLClient (account_for "AzureAD" "OneWaySMS") MFAsByProvider).1.
Proof.
  apply NewSAMLClient_independent_of_history.
  apply NewSAMLClient_reordered, reordered_initial.
Defined.

End registry_more.

(** * Properties of the configuration prompt *)

Section configuration_prompt.
Import prompter.
Context {W : Type} `{!Prompter W}.

Ltac prompt_cases :=
  repeat (match goal with
    | |- context [bool_decide ?P] =>
        destruct (decide P);
        [rewrite (bool_decide_eq_true_2 P) by assumption
        |rewrite (bool_decide_eq_false_2 P) by assumption]
    | |- context [String ?p ?d ?w] => destruct (String p d w) as [? ?]
    | |- context [ChooseWithDefault ?p ?d ?o ?w] =>
        destruct (ChooseWithDefault p d o w) as [[? [?|]] ?]
    end; simpl in *; subst).

(** What the prompts after the choice of the MFA leave alone. *)
Lemma prompt_account_fields_frame (ia : IDPAccount) (w : W) :
  let ia' := (input.prompt_account_fields ia w).1 in
  Provider ia' = Provider ia ∧ MFA ia' = MFA ia
  ∧ SkipVerify ia' = SkipVerify ia ∧ Timeout ia' = Timeout ia
  ∧ AlibabaCloudURN ia' = AlibabaCloudURN ia
  ∧ SessionDuration ia' = SessionDuration ia
  ∧ RoleARN ia' = RoleARN ia ∧ Region ia' = Region ia
  ∧ HTTPAttemptsCount ia' = HTTPAttemptsCount ia
  ∧ HTTPRetryDelay ia' = HTTPRetryDelay ia
  ∧ BrowserType ia' = BrowserType ia
  ∧ BrowserExecutablePath ia' = BrowserExecutablePath ia
  ∧ BrowserAutoFill ia' = BrowserAutoFill ia
  ∧ DownloadBrowser ia' = DownloadBrowser ia
  ∧ BrowserDriverDir ia' = BrowserDriverDir ia
  ∧ Headless ia' = Headless ia ∧ cfg.Prompter ia' = cfg.Prompter ia
  ∧ (Provider ia ≠ "F5APM" → ResourceID ia' = ResourceID ia)
  ∧ (Provider ia ≠ "OneLogin" → Subdomain ia' = Subdomain ia)
  ∧ (Provider ia ≠ "OneLogin" → Provider ia ≠ "AzureAD" →
     AppID ia' = AppID ia).
Proof.
  unfold input.prompt_account_fields, mbind, M_bind, mret, M_ret.
  destruct ia. simpl. prompt_cases. all: by repeat split.
Qed.

(** The account after the call keeps every field that no prompt is about, and
    the fields of a provider other than the one chosen. *)
Theorem PromptForConfigurationDetails_frame (ia : IDPAccount)
    (tbl : ProviderList) (w : W) :
  let ia' := (input.PromptForConfigurationDetails ia tbl w).1.1.1 in
  SkipVerify ia' = SkipVerify ia ∧ Timeout ia' = Timeout ia
  ∧ AlibabaCloudURN ia' = AlibabaCloudURN ia
  ∧ SessionDuration ia' = SessionDuration ia
  ∧ cfg.RoleARN ia' = cfg.RoleARN ia ∧ Region ia' = Region ia
  ∧ HTTPAttemptsCount ia' = HTTPAttemptsCount ia
  ∧ HTTPRetryDelay ia' = HTTPRetryDelay ia
  ∧ BrowserType ia' = BrowserType ia
  ∧ BrowserExecutablePath ia' = BrowserExecutablePath ia
  ∧ BrowserAutoFill ia' = BrowserAutoFill ia
  ∧ DownloadBrowser ia' = DownloadBrowser ia
  ∧ BrowserDriverDir ia' = BrowserDriverDir ia
  ∧ Headless ia' = Headless ia ∧ cfg.Prompter ia' = cfg.Prompter ia
  ∧ (Provider ia' ≠ "F5APM" → ResourceID ia' = ResourceID ia)
  ∧ (Provider ia' ≠ "OneLogin" → Subdomain ia' = Subdomain ia)
  ∧ (Provider ia' ≠ "OneLogin" → Provider ia' ≠ "AzureAD" →
     AppID ia' = AppID ia).
Proof.
  unfold input.PromptForConfigurationDetails, mbind, M_bind, mret, M_ret.
  destruct (ChooseWithDefault _ _ _ w) as [[provider [err|]] w1];
    [by destruct ia|].
  destruct (Mfas _ tbl) as [mfas tbl'].
  assert (∀ mfa w2,
    let ia' := (input.prompt_account_fields
                  (with_MFA mfa (with_Provider provider ia)) w2).1 in
    SkipVerify ia' = SkipVerify ia ∧ Timeout ia' = Timeout ia
    ∧ AlibabaCloudURN ia' = AlibabaCloudURN ia
    ∧ SessionDuration ia' = SessionDuration ia
    ∧ cfg.RoleARN ia' = cfg.RoleARN ia ∧ Region ia' = Region ia
    ∧ HTTPAttemptsCount ia' = HTTPAttemptsCount ia
    ∧ HTTPRetryDelay ia' = HTTPRetryDelay ia
    ∧ BrowserType ia' = BrowserType ia
    ∧ BrowserExecutablePath ia' = BrowserExecutablePath ia
    ∧ BrowserAutoFill ia' = BrowserAutoFill ia
    ∧ DownloadBrowser ia' = DownloadBrowser ia
    ∧ BrowserDriverDir ia' = BrowserDriverDir ia
    ∧ Headless ia' = Headless ia ∧ cfg.Prompter ia' = cfg.Prompter ia
    ∧ (Provider ia' ≠ "F5APM" → ResourceID ia' = ResourceID ia)
    ∧ (Provider ia' ≠ "OneLogin" → Subdomain ia' = Subdomain ia)
    ∧ (Provider ia' ≠ "OneLogin" → Provider ia' ≠ "AzureAD" →
       AppID ia' = AppID ia)) as Htail.
  { intros mfa w2.
    pose proof (prompt_account_fields_frame
                  (with_MFA mfa (with_Provider provider ia)) w2) as Hframe.
    destruct (input.prompt_account_fields _ w2) as [ia2 w3].
    destruct ia. cbn in *.
    destruct Hframe as (-> & _ & Hrest). by intuition. }
  case_bool_decide.
  - destruct (ChooseWithDefault _ _ _ w1) as [[mfa [err|]] w2];
      [by destruct ia|].
    specialize (Htail mfa w2).
    by destruct (input.prompt_account_fields _ w2) as [ia2 w3].
  - destruct mfas as [|first rest]; [by destruct ia|].
    specialize (Htail first w1).
    by destruct (input.prompt_account_fields _ w1) as [ia2 w3].
Qed.

Lemma MFAsByProvider_nonempty (provider : string) (mfas : list string) :
  MFAsByProvider !! provider = Some mfas → mfas ≠ [].
Proof.
  intros H%elem_of_list_to_map_2.
  repeat (apply elem_of_cons in H as [[= -> ->]|H]; [done|]).
  by apply elem_of_nil in H.
Qed.

(** The call panics exactly when the chooser returns, without error, a
    provider for which the table has no identifier. *)
Theorem PromptForConfigurationDetails_panics_iff (ia : IDPAccount)
    (tbl : ProviderList) (w : W) :
  let answer :=
    (ChooseWithDefault "Please choose a provider:" (Provider ia) (Names tbl)
       w).1 in
  (∃ msg, (input.PromptForConfigurationDetails ia tbl w).1.1.2 = Panic msg)
  ↔ answer.2 = None ∧ default [] (tbl !! answer.1) = [].
Proof.
  unfold input.PromptForConfigurationDetails, mbind, M_bind, mret, M_ret.
  destruct (ChooseWithDefault _ _ _ w) as [[provider [err|]] w1]; cbn [fst snd].
  { split; [by intros [? ?]|by intros [? ?]]. }
  replace (Provider (with_Provider provider ia)) with provider
    by (by destruct ia).
  unfold Mfas. destruct (tbl !! provider) as [l|]; cbn [default].
  - case_bool_decide as Hlen.
    + assert (l ≠ []) as Hl.
      { intros ->. by vm_compute in Hlen; lia. }
      destruct (ChooseWithDefault _ _ _ w1) as [[mfa [err|]] w2];
        [split; [by intros [? ?]|by intros [_ ?]]|].
      destruct (input.prompt_account_fields _ w2) as [ia2 w3].
      split; [by intros [? ?]|by intros [_ ?]].
    + destruct (sort_Strings l) as [|first rest] eqn:Hsort.
      * assert (l = []) as ->.
        { apply Permutation_nil_r.
          by rewrite <-(sort_Strings_Permutation l), Hsort. }
        split; [done|]. intros _. by eexists.
      * assert (l ≠ []) as Hl.
        { intros ->. by vm_compute in Hsort. }
        destruct (input.prompt_account_fields _ w1) as [ia2 w3].
        split; [by intros [? ?]|by intros [_ ?]].
  - rewrite bool_decide_eq_false_2 by (cbn; lia).
    split; [done|]. intros _. by eexists.
Qed.

(** With a chooser that answers within the options offered, and in any table
    that earlier calls can have left, the call never panics; when it returns
    no error, the provider and the MFA of the account are a pair of the static
    table, the registry resolves the account to a provider package, and the
    table still holds the static identifiers. *)
Theorem PromptForConfigurationDetails_resolvable (ia : IDPAccount)
    (tbl : ProviderList) (w : W) :
  answers_within_options →
  reordered tbl →
  let run := (input.PromptForConfigurationDetails ia tbl w).1 in
  (∀ msg, run.1.2 ≠ Panic msg)
  ∧ reordered run.2
  ∧ (run.1.2 = Return None →
     ∃ mfas pkg,
       MFAsByProvider !! Provider run.1.1 = Some mfas
       ∧ MFA run.1.1 ∈ mfas
       ∧ (NewSAMLClient run.1.1 run.2).1 = Construct pkg run.1.1).
Proof.
  intros Hwithin Htbl.
  assert (∀ ia' tbl' mfas,
            reordered tbl' →
            MFAsByProvider !! Provider ia' = Some mfas → MFA ia' ∈ mfas →
            ∃ pkg, (NewSAMLClient ia' tbl').1 = Construct pkg ia') as Hresolve.
  { intros ia' tbl' mfas Htbl' Hkey Hmfa.
    destruct (NewSAMLClient_key ia' tbl' mfas Hkey)
      as [[pkg [_ ->]]|[pkg [_ ->]]]; exists pkg; [done|].
    rewrite (checked_reordered pkg ia' tbl' mfas Htbl' Hkey).
    by rewrite bool_decide_eq_true_2. }
  unfold input.PromptForConfigurationDetails, mbind, M_bind, mret, M_ret.
  pose proof (Hwithin "Please choose a provider:" (Provider ia) (Names tbl) w)
    as Hprovider.
  destruct (ChooseWithDefault _ _ _ w) as [[provider [err|]] w1];
    cbn [fst snd] in *; [by repeat split|].
  specialize (Hprovider eq_refl). apply elem_of_Names in Hprovider as [l Hl].
  replace (Provider (with_Provider provider ia)) with provider
    by (by destruct ia).
  pose proof (Mfas_reordered provider tbl Htbl) as Htbl'.
  pose proof (Htbl provider) as Hperm. rewrite Hl in Hperm.
  inversion Hperm as [? mfas Hperm' Heq1 Heq2|]; subst. symmetry in Heq2.
  pose proof (MFAsByProvider_nonempty _ _ Heq2) as Hnonempty.
  unfold Mfas in *. rewrite Hl in *. cbn [fst snd] in *.
  assert (∀ mfa w2, mfa ∈ sort_Strings l →
    let tail := input.prompt_account_fields
                  (with_MFA mfa (with_Provider provider ia)) w2 in
    ∃ mfas' pkg,
      MFAsByProvider !! Provider tail.1 = Some mfas'
      ∧ MFA tail.1 ∈ mfas'
      ∧ (NewSAMLClient tail.1 (<[provider:=sort_Strings l]> tbl)).1
        = Construct pkg tail.1) as Htail.
  { intros mfa w2 Hmfa.
    pose proof (prompt_account_fields_frame
                  (with_MFA mfa (with_Provider provider ia)) w2)
      as (Hp & Hm & _).
    cbn zeta. destruct (input.prompt_account_fields _ w2) as [ia2 w3].
    cbn [fst] in *.
    assert (Provider ia2 = provider) as Hp' by (rewrite Hp; by destruct ia).
    assert (MFA ia2 = mfa) as Hm' by (rewrite Hm; by destruct ia).
    assert (MFA ia2 ∈ mfas) as Hin.
    { rewrite Hm', <-Hperm'. by rewrite <-(sort_Strings_Permutation l). }
    rewrite <-Hp' in Heq2.
    destruct (Hresolve ia2 _ mfas Htbl' Heq2 Hin) as [pkg Hpkg].
    by exists mfas, pkg. }
  case_bool_decide as Hlen.
  - pose proof (Hwithin "Please choose an MFA"
                  (MFA (with_Provider provider ia)) (sort_Strings l) w1)
      as Hmfa.
    destruct (ChooseWithDefault _ _ _ w1) as [[mfa [err|]] w2];
      cbn [fst snd] in *; [by repeat split|].
    specialize (Htail mfa w2 (Hmfa eq_refl)).
    destruct (input.prompt_account_fields _ w2) as [ia2 w3].
    cbn [fst snd] in *. by repeat split.
  - destruct (sort_Strings l) as [|first rest] eqn:Hsort.
    { destruct Hnonempty. apply Permutation_nil_r. rewrite <-Hperm'.
      by rewrite <-(sort_Strings_Permutation l), Hsort. }
    specialize (Htail first w1 ltac:(left)).
    destruct (input.prompt_account_fields _ w1) as [ia2 w3].
    cbn [fst snd] in *. by repeat split.
Qed.

End configuration_prompt.

Lemma menu_user_within_options : @answers_within_options _ menu_user.
Proof.
  intros prompt def options w. cbn.
  destruct (prompter.next_answer w) as [a w'].
  by case_bool_decide.
Qed.

Lemma PromptForConfigurationDetails_resolvable_witness :
  let run :=
    (@input.PromptForConfigurationDetails _ menu_user NewIDPAccount
       MFAsByProvider
       ["Okta"; "TOTP"; "work"; "https://idp.example.com"; "alice"]).1 in
  run.1.2 = Return None
  ∧ Provider run.1.1 = "Okta" ∧ MFA run.1.1 = "TOTP"
  ∧ ∃ pkg, (NewSAMLClient run.1.1 run.2).1 = Construct pkg run.1.1.
Proof.
  intros run.
  destruct (@PromptForConfigurationDetails_resolvable _ menu_user
              NewIDPAccount MFAsByProvider
              ["Okta"; "TOTP"; "work"; "https://idp.example.com"; "alice"]
              menu_user_within_options reordered_initial)
    as (_ & _ & Hok).
  assert (run.1.2 = Return None) as Hrun by (vm_compute; reflexivity).
  destruct (Hok Hrun) as (mfas & pkg & _ & _ & Hpkg).
  split; [exact Hrun|]. split; [vm_compute; reflexivity|].
  split; [vm_compute; reflexivity|]. by exists pkg.
Defined.

(** * Properties of the role selection *)

Section role_selection.
Import prompter input.
Context {W : Type} `{!Prompter W}.

Lemma foldl_insert_list_to_map (l : list (string * RamRole))
    (m : gmap string RamRole) :
  foldl (λ m p, <[p.1 := p.2]> m) m l = list_to_map (reverse l) ∪ m.
Proof.
  revert m. induction l as [|[label role] l IH]; intros m; simpl.
  - change (reverse []) with (@nil (string * RamRole)).
    by rewrite (left_id_L ∅ (∪)).
  - rewrite IH, reverse_cons, list_to_map_app. simpl.
    rewrite insert_empty, <-(assoc_L (∪)).
    by rewrite <-insert_union_singleton_l.
Qed.

Lemma add_account_roles (acc : gmap string RamRole * list string)
    (account : AlibabaCloudAccount) :
  (add_account acc account).1 =
    foldl (λ m p, <[p.1 := p.2]> m) acc.1
      ((λ role, (AccountName account +:+ " / " +:+ Name role, role))
         <$> Roles account).
Proof.
  unfold add_account. revert acc.
  induction (Roles account) as [|role roles IH]; intros acc; simpl; [done|].
  by rewrite IH.
Qed.

Lemma foldl_add_account_roles (acc : gmap string RamRole * list string)
    (accounts : list AlibabaCloudAccount) :
  (foldl add_account acc accounts).1 =
    foldl (λ m p, <[p.1 := p.2]> m) acc.1 (labelled_roles accounts).
Proof.
  revert acc. induction accounts as [|account accounts IH]; intros acc; simpl.
  - done.
  - rewrite IH, add_account_roles. unfold labelled_roles. csimpl.
    by rewrite foldl_app.
Qed.

(** The map [roles]: the labelled roles, a later role replacing an earlier one
    with the same label. *)
Lemma collect_roles_map (accounts : list AlibabaCloudAccount) :
  (collect_roles accounts).1 = list_to_map (reverse (labelled_roles accounts)).
Proof.
  unfold collect_roles.
  rewrite foldl_add_account_roles, foldl_insert_list_to_map. cbn [fst].
  by rewrite (right_id_L ∅ (∪)).
Qed.

Lemma labelled_roles_labels (accounts : list AlibabaCloudAccount) :
  (labelled_roles accounts).*1 = composite_labels accounts.
Proof.
  unfold labelled_roles, composite_labels.
  induction accounts as [|account accounts IH]; csimpl; [done|].
  rewrite fmap_app, IH. f_equal. rewrite <-list_fmap_compose.
  by apply list_fmap_ext.
Qed.

Lemma elem_of_labelled_roles (accounts : list AlibabaCloudAccount)
    (label : string) (role : RamRole) :
  (label, role) ∈ labelled_roles accounts ↔
  ∃ account, account ∈ accounts ∧ role ∈ Roles account
             ∧ label = AccountName account +:+ " / " +:+ Name role.
Proof.
  unfold labelled_roles. rewrite list_elem_of_bind. split.
  - intros (account & Hin & Haccount). exists account.
    apply list_elem_of_fmap in Hin as (role' & [= -> ->] & Hrole). done.
  - intros (account & Haccount & Hrole & ->). exists account.
    split; [|done]. apply list_elem_of_fmap. by exists role.
Qed.

(** When the chooser returns a selection without error, the call returns the
    role recorded for that label and no error: a role of one of the accounts,
    whose label is the selection; no role at all (and still no error) when the
    selection is none of the labels; and, when no two roles have the same
    label, the very role the selected label was made from. *)
Theorem PromptForRamRoleSelection_returns_labelled_role
    (accounts : list AlibabaCloudAccount) (w w' : W)
    (first selected : string) :
  head (sort_Strings (composite_labels accounts)) = Some first →
  ChooseWithDefault "Please choose the role" first
    (sort_Strings (composite_labels accounts)) w = ((selected, None), w') →
  ∃ chosen,
    PromptForRamRoleSelection accounts w = (Return (chosen, None), w')
    ∧ (chosen = None ↔ selected ∉ composite_labels accounts)
    ∧ (∀ role, chosen = Some role →
         ∃ account, account ∈ accounts ∧ role ∈ Roles account
                    ∧ selected = AccountName account +:+ " / " +:+ Name role)
    ∧ (NoDup (composite_labels accounts) →
       ∀ account role, account ∈ accounts → role ∈ Roles account →
         selected = AccountName account +:+ " / " +:+ Name role →
         chosen = Some role).
Proof.
  intros Hhead Hanswer.
  exists ((collect_roles accounts).1 !! selected). split; [|split; [|split]].
  - unfold PromptForRamRoleSelection.
    pose proof (collect_roles_labels accounts) as Hlabels.
    destruct (collect_roles accounts) as [roles roleOptions].
    cbn [fst snd] in *. subst roleOptions.
    destruct (sort_Strings (composite_labels accounts)) as [|first' rest]
      eqn:Hsorted; [done|].
    injection Hhead as ->. unfold mbind, M_bind. by rewrite Hanswer.
  - rewrite collect_roles_map, <-not_elem_of_list_to_map.
    by rewrite fmap_reverse, elem_of_reverse, labelled_roles_labels.
  - intros role Hrole. rewrite collect_roles_map in Hrole.
    apply elem_of_list_to_map_2 in Hrole. rewrite elem_of_reverse in Hrole.
    apply elem_of_labelled_roles in Hrole. exact Hrole.
  - intros Hnodup account role Haccount Hrole Hlabel.
    rewrite collect_roles_map. apply elem_of_list_to_map_1.
    + by rewrite fmap_reverse, labelled_roles_labels, reverse_Permutation.
    + rewrite elem_of_reverse. apply elem_of_labelled_roles.
      by exists account.
Qed.

End role_selection.

Lemma PromptForRamRoleSelection_returns_labelled_role_witness :
  @input.PromptForRamRoleSelection _ prompter.scripted three_roles
    ["Acct2 / Admin"]
  = (Return (Some role_Acct2_Admin, None), []).
Proof.
  destruct (@PromptForRamRoleSelection_returns_labelled_role
              _ prompter.scripted three_roles ["Acct2 / Admin"] []
              "Acct1 / Admin" "Acct2 / Admin")
    as (chosen & Hrun & _ & _ & Hunique);
    [vm_compute; reflexivity..|].
  rewrite Hrun.
  rewrite (Hunique ltac:(compute_done)
             (input.mkAlibabaCloudAccount "Acct2" [role_Acct2_Admin])
             role_Acct2_Admin); [done|by left|by left|done].
Defined.

(** With two roles under one label the later one is returned, whichever of
    the two equal options the user picks. *)
Example PromptForRamRoleSelection_same_label :
  let first := input.mkRamRole "acs:ram::1:role/a" "acs:ram::1:saml-provider/x" "Admin" in
  let second := input.mkRamRole "acs:ram::1:role/b" "acs:ram::1:saml-provider/y" "Admin" in
  @input.PromptForRamRoleSelection _ prompter.scripted
    [input.mkAlibabaCloudAccount "Acct1" [first; second]] ["Acct1 / Admin"]
  = (Return (Some second, None), []).
Proof. vm_compute. reflexivity. Qed.

(** * Properties of the configuration store *)

Section persistence.
Import ini.

(** What a successful save did, step by step. *)
Lemma SaveIDPAccount_succeeded `{!NetURL} (cm : ConfigManager)
    (name : string) (a : IDPAccount) (fs fs' : filesystem) :
  SaveIDPAccount cm name a fs = (None, fs') →
  ∃ cfg cfg1,
    name ≠ ""
    ∧ LoadSources (configPath cm) fs = Ok cfg
    ∧ NewSection cfg name = Ok (name, cfg1)
    ∧ fs' = mkFilesystem
              (<[configPath cm :=
                   mkOnDisk (ReflectFrom fields cfg1 name a).2 None]>
                 (files fs))
              (write_error fs).
Proof.
  unfold SaveIDPAccount. destruct (Validate a); [done|].
  destruct (LoadSources _ _) as [cfg|err] eqn:Hload; [|done].
  destruct (NewSection cfg name) as [[sec cfg1]|err] eqn:Hnew; [|done].
  pose proof Hnew as (-> & Hname & _)%NewSection_Ok.
  pose proof (ReflectFrom_no_error fields a name cfg1) as Hok.
  destruct (ReflectFrom fields cfg1 name a) as [r cfg2] eqn:Hreflect.
  cbn [fst snd] in *. subst r. unfold SaveTo.
  destruct (write_error fs !! configPath cm); [done|].
  intros [= <-]. exists cfg, cfg1. by rewrite Hreflect.
Qed.

(** The keys of the saved section after a save, in a file whose parent
    sections of that name hold no key. *)
Lemma SaveIDPAccount_section `{!NetURL} (cm : ConfigManager)
    (name : string) (a : IDPAccount) (fs fs' : filesystem) :
  SaveIDPAccount cm name a fs = (None, fs') →
  (∀ q, q ∈ resolve <$> parents name →
        stored_keys fs (configPath cm) q = ∅) →
  name ≠ ""
  ∧ (∃ d, files fs' !! configPath cm = Some d ∧ malformed d = None
          ∧ is_Some (parsed d !! name))
  ∧ stored_keys fs' (configPath cm) name =
      foldl (store_field a) (stored_keys fs (configPath cm) name) fields
  ∧ ∀ other, other ≠ name →
      stored_keys fs' (configPath cm) other
      = stored_keys fs (configPath cm) other.
Proof.
  intros (cfg & cfg1 & Hname & Hload & Hnew & ->)%SaveIDPAccount_succeeded
    Hparents.
  apply LoadSources_default in Hload as [_ Hcfg].
  apply NewSection_Ok in Hnew as (_ & _ & Hsome & Hcfg1).
  destruct (reflect_fields_own_section a name fields cfg1 Hname Hsome)
    as (Hsome' & Hkeys & Hother).
  { intros q Hq _. by rewrite Hcfg1, Hcfg, Hparents. }
  split; [done|]. unfold stored_keys at 1 3. cbn [files].
  rewrite lookup_insert_eq. cbn [parsed]. unfold ReflectFrom. cbn [snd].
  split; [by eexists|]. split.
  - by rewrite Hkeys, Hcfg1, Hcfg.
  - intros other Hne. by rewrite Hother, Hcfg1, Hcfg.
Qed.

(** What a save stores.  After a successful save
    under a name whose parent sections hold no key, the section of that name
    holds, for every field that [omitempty] does not skip, the printed value
    of the field under its tag; a skipped field and a key that is the tag of
    no field keep what the section held; and every other section is as it
    was. *)
Theorem SaveIDPAccount_stored_fields `{!NetURL} (cm : ConfigManager)
    (name : string) (a : IDPAccount) (fs fs' : filesystem) :
  SaveIDPAccount cm name a fs = (None, fs') →
  (∀ q, q ∈ resolve <$> parents name →
        stored_keys fs (configPath cm) q = ∅) →
  (∀ fld, fld ∈ fields →
     stored_keys fs' (configPath cm) name !! tag fld =
       if skipped a fld then stored_keys fs (configPath cm) name !! tag fld
       else Some (Sprint (get fld a)))
  ∧ (∀ key, key ∉ tag <$> fields →
       stored_keys fs' (configPath cm) name !! key
       = stored_keys fs (configPath cm) name !! key)
  ∧ (∀ other, other ≠ name →
       stored_keys fs' (configPath cm) other
       = stored_keys fs (configPath cm) other).
Proof.
  intros Hsave Hparents.
  destruct (SaveIDPAccount_section cm name a fs fs' Hsave Hparents)
    as (_ & _ & -> & Hother).
  destruct (store_fields_lookup a fields
              (stored_keys fs (configPath cm) name) fields_tags_NoDup)
    as [Hin Hout].
  by repeat split.
Qed.

Lemma fields_set_frame :
  Forall (λ fld : field IDPAccount,
            Forall (λ fld' : field IDPAccount,
                      tag fld ≠ tag fld' →
                      ∀ v b, get fld' (set fld v b) = get fld' b) fields)
         fields.
Proof.
  unfold fields.
  repeat (apply Forall_cons; split); try (by apply Forall_nil);
    intros Hne v b; first [by destruct Hne | by destruct v].
Qed.

Lemma setWithProperType_frame `{!Conv} (fld fld' : field IDPAccount)
    (raw : string) (b : IDPAccount) :
  fld ∈ fields → fld' ∈ fields → tag fld ≠ tag fld' →
  get fld' (setWithProperType fld raw b) = get fld' b.
Proof.
  intros Hfld Hfld' Hne.
  pose proof fields_set_frame as Hframe.
  rewrite Forall_forall in Hframe. specialize (Hframe fld Hfld).
  rewrite Forall_forall in Hframe. specialize (Hframe fld' Hfld' Hne).
  unfold setWithProperType. destruct (get fld b).
  - destruct (conv_string raw); [apply Hframe|done].
  - destruct (conv_bool raw); [apply Hframe|done].
  - destruct (conv_int raw); [apply Hframe|done].
Qed.

(** A skipped field of an account has the value the default account has. *)
Lemma skipped_default (fld : field IDPAccount) (a : IDPAccount) :
  fld ∈ fields → skipped a fld = true →
  get fld NewIDPAccount = get fld a.
Proof.
  intros Hfld. revert a.
  assert (Forall (λ fld : field IDPAccount,
                    ∀ a, skipped a fld = true →
                         get fld NewIDPAccount = get fld a) fields) as Hall.
  { unfold fields, skipped.
    repeat (apply Forall_cons; split); try (by apply Forall_nil);
      intros a; cbn; try discriminate.
    - by intros ->%bool_decide_eq_true.
    - by intros ->%bool_decide_eq_true.
    - by intros ->%negb_true_iff.
    - by intros ->%bool_decide_eq_true. }
  rewrite Forall_forall in Hall. by apply Hall.
Qed.

(** Two accounts with the same value in every field are the same. *)
Lemma fields_ext (x y : IDPAccount) :
  (∀ fld, fld ∈ fields → get fld x = get fld y) → x = y.
Proof.
  intros Hall. apply Forall_forall in Hall. unfold fields in Hall.
  repeat (apply Forall_cons in Hall as [? Hall]).
  destruct x, y. cbn in *. by simplify_eq.
Qed.

(** [MapTo] on a section that holds the printed fields of an account. *)
Lemma map_fields_back `{!Conv} (a : IDPAccount) (f : File) (name : string)
    (flds : list (field IDPAccount)) (b : IDPAccount) :
  reads_back a →
  (∀ fld, fld ∈ fields →
     GetKey f name (tag fld) =
       if skipped a fld then None else Some (name, Sprint (get fld a))) →
  (∀ fld, fld ∈ flds → fld ∈ fields) →
  NoDup (tag <$> flds) →
  (∀ fld, fld ∈ flds → get fld b = get fld NewIDPAccount) →
  (∀ fld, fld ∈ flds →
     get fld (foldl (map_field f name) b flds) = get fld a)
  ∧ (∀ fld', fld' ∈ fields → tag fld' ∉ tag <$> flds →
       get fld' (foldl (map_field f name) b flds) = get fld' b).
Proof.
  intros Hback Hkeys. revert b.
  induction flds as [|x flds IH]; intros b Hsub Hnodup Hdefault; cbn [foldl].
  { split; [by intros fld ?%elem_of_nil|done]. }
  rewrite fmap_cons in Hnodup. apply NoDup_cons in Hnodup as [Hx Hnodup].
  assert (x ∈ fields) as Hxin by (apply Hsub; left).
  assert (get x (map_field f name b x) = get x a) as Hhere.
  { unfold map_field. rewrite (Hkeys x Hxin).
    destruct (skipped a x) eqn:Hskip.
    - rewrite (Hdefault x) by left. by apply skipped_default.
    - apply Hback; [done..|]. apply Hdefault. left. }
  assert (∀ fld', fld' ∈ fields → tag fld' ≠ tag x →
            get fld' (map_field f name b x) = get fld' b) as Hthere.
  { intros fld' Hfld' Hne. unfold map_field. rewrite (Hkeys x Hxin).
    destruct (skipped a x); [done|].
    by apply setWithProperType_frame. }
  destruct (IH (map_field f name b x)) as [Hin Hout].
  { intros fld Hfld. apply Hsub. by right. }
  { done. }
  { intros fld Hfld. rewrite Hthere.
    - apply Hdefault. by right.
    - apply Hsub. by right.
    - intros Heq. apply Hx. rewrite <-Heq. by apply list_elem_of_fmap_2. }
  split.
  - intros fld [->|Hfld]%elem_of_cons; [|by apply Hin].
    by rewrite Hout.
  - intros fld' Hfld' Htag. rewrite fmap_cons, not_elem_of_cons in Htag.
    destruct Htag as [Hne Htag]. by rewrite Hout, Hthere.
Qed.

(** Save, then load.  After a successful save under a name whose parent
    sections hold no key, and whose section holds no key left for a field
    that [omitempty] skips, loading that name returns the account saved,
    provided the conversions read the printed fields back. *)
Theorem SaveIDPAccount_then_LoadIDPAccount `{!NetURL} `{!Conv}
    (cm : ConfigManager) (name : string) (a : IDPAccount)
    (fs fs' : filesystem) :
  SaveIDPAccount cm name a fs = (None, fs') →
  (∀ q, q ∈ resolve <$> parents name →
        stored_keys fs (configPath cm) q = ∅) →
  (∀ fld, fld ∈ fields → skipped a fld = true →
          stored_keys fs (configPath cm) name !! tag fld = None) →
  reads_back a →
  LoadIDPAccount cm name fs' = Ok a.
Proof.
  intros Hsave Hparents Hstale Hback.
  destruct (SaveIDPAccount_section cm name a fs fs' Hsave Hparents)
    as (Hname & (d & Hd & Hmal & Hsome) & Hkeys & Hother).
  destruct (store_fields_lookup a fields
              (stored_keys fs (configPath cm) name) fields_tags_NoDup)
    as [Hin _].
  unfold LoadIDPAccount, readAccount.
  destruct (LoadSources (configPath cm) fs') as [cfg|err] eqn:Hload.
  2:{ unfold LoadSources in Hload. by rewrite Hd, Hmal in Hload. }
  pose proof Hload as [Hdef Hcfg]%LoadSources_default.
  assert (is_Some (cfg !! name)) as Hcfgname.
  { unfold LoadSources in Hload. rewrite Hd, Hmal in Hload.
    injection Hload as <-. unfold ensure_default.
    destruct (parsed d !! DefaultSection); [done|].
    destruct (decide (DefaultSection = name)) as [<-|Hne];
      [by rewrite lookup_insert_eq|by rewrite lookup_insert_ne]. }
  assert (Section_ cfg name = (name, cfg)) as ->.
  { unfold Section_, GetSection. rewrite bool_decide_eq_false_2 by done.
    by destruct Hcfgname as [? ->]. }
  assert (∀ fld, fld ∈ fields →
            GetKey cfg name (tag fld) =
              if skipped a fld then None
              else Some (name, Sprint (get fld a))) as Hget.
  { intros fld Hfld. rewrite GetKey_own_section; [|done..|].
    - rewrite Hcfg, Hkeys, (Hin fld Hfld).
      destruct (skipped a fld) eqn:Hskip; [|done].
      by rewrite Hstale.
    - intros q Hq Hne. by rewrite Hcfg, Hother, Hparents. }
  unfold MapTo.
  destruct (map_fields_back a cfg name fields NewIDPAccount Hback Hget)
    as [Hall _]; [done|apply fields_tags_NoDup|done|].
  by rewrite (fields_ext _ a Hall).
Qed.

(** A save that fails on a path that can be written leaves every file as it
    was, and its error is one of validation, load and section creation. *)
Theorem SaveIDPAccount_failure_writes_nothing `{!NetURL} (cm : ConfigManager)
    (name : string) (a : IDPAccount) (fs : filesystem) (e : error) :
  (SaveIDPAccount cm name a fs).1 = Some e →
  write_error fs !! configPath cm = None →
  (SaveIDPAccount cm name a fs).2 = fs
  ∧ ∃ cause msg,
      e = errors_Wrap cause msg
      ∧ msg ∈ ["Account validation failed";
               "Unable to load configuration file";
               "Unable to build a new section in configuration file"].
Proof.
  unfold SaveIDPAccount. intros Herr Hwrite.
  destruct (Validate a) as [err|].
  { injection Herr as <-. split; [done|]. eexists _, _. split; [done|].
    compute_done. }
  destruct (LoadSources _ _) as [cfg|err].
  2:{ injection Herr as <-. split; [done|]. eexists _, _. split; [done|].
      compute_done. }
  destruct (NewSection cfg name) as [[sec cfg1]|err].
  2:{ injection Herr as <-. split; [done|]. eexists _, _. split; [done|].
      compute_done. }
  pose proof (ReflectFrom_no_error fields a sec cfg1) as Hok.
  destruct (ReflectFrom fields cfg1 sec a) as [r cfg2]. cbn [fst] in Hok.
  subst r. unfold SaveTo in *. by rewrite Hwrite in Herr.
Qed.

(** The empty name.  A save under it never succeeds and writes nothing (a
    valid account on a file that loads is refused when the section is made);
    a load under it reads the default section. *)
Theorem empty_account_name `{!NetURL} `{!Conv} (cm : ConfigManager)
    (a : IDPAccount) (fs : filesystem) :
  SaveIDPAccount cm "" a fs = ((SaveIDPAccount cm "" a fs).1, fs)
  ∧ is_Some (SaveIDPAccount cm "" a fs).1
  ∧ (Validate a = None →
     (∀ d, files fs !! configPath cm = Some d → malformed d = None) →
     ∃ cause,
       (SaveIDPAccount cm "" a fs).1 =
         Some (errors_Wrap cause
                 "Unable to build a new section in configuration file"))
  ∧ LoadIDPAccount cm "" fs = LoadIDPAccount cm DefaultSection fs.
Proof.
  split; [|split; [|split]].
  - unfold SaveIDPAccount. destruct (Validate a); [done|].
    by destruct (LoadSources _ _).
  - unfold SaveIDPAccount. destruct (Validate a); [done|].
    by destruct (LoadSources _ _).
  - intros Hvalid Hparses. unfold SaveIDPAccount. rewrite Hvalid.
    assert (∃ cfg, LoadSources (configPath cm) fs = Ok cfg) as [cfg ->].
    { unfold LoadSources.
      destruct (files fs !! configPath cm) as [d|]; [|by eexists].
      rewrite (Hparses d eq_refl). by eexists. }
    by eexists.
  - unfold LoadIDPAccount, readAccount.
    destruct (LoadSources (configPath cm) fs) as [cfg|err] eqn:Hload;
      [|done].
    apply LoadSources_default in Hload as [[ks Hdef] _].
    unfold Section_, GetSection.
    rewrite bool_decide_eq_true_2 by done.
    rewrite (bool_decide_eq_false_2 (DefaultSection = "")) by done.
    by rewrite Hdef.
Qed.

End persistence.

Section persistence_examples.
Import ini.

Lemma SaveIDPAccount_stored_fields_witness :
  stored_keys
    (@SaveIDPAccount no_newline_URL the_manager "home"
       (okta_account "https://home.example.com" "home") work_file).2
    (configPath the_manager) "home" !! "url"
  = Some "https://home.example.com".
Proof.
  destruct (@SaveIDPAccount_stored_fields no_newline_URL the_manager "home"
              (okta_account "https://home.example.com" "home") work_file
              (@SaveIDPAccount no_newline_URL the_manager "home"
                 (okta_account "https://home.example.com" "home")
                 work_file).2) as [Hfields _].
  - vm_compute. reflexivity.
  - intros q Hq. vm_compute in Hq. by apply elem_of_nil in Hq.
  - apply (Hfields _ url_field_in_fields).
Defined.

Lemma okta_account_reads_back :
  @reads_back text_Conv (okta_account "https://home.example.com" "home").
Proof.
  intros fld b Hfld _ Hb. unfold fields in Hfld.
  repeat (apply elem_of_cons in Hfld as [->|Hfld];
          [vm_compute in Hb |- *; first [reflexivity | exact Hb]|]).
  by apply elem_of_nil in Hfld.
Qed.

Lemma SaveIDPAccount_then_LoadIDPAccount_witness :
  @LoadIDPAccount text_Conv the_manager "home"
    (@SaveIDPAccount no_newline_URL the_manager "home"
       (okta_account "https://home.example.com" "home") work_file).2
  = Ok (okta_account "https://home.example.com" "home").
Proof.
  apply (@SaveIDPAccount_then_LoadIDPAccount no_newline_URL text_Conv
           the_manager "home" _ work_file).
  - vm_compute. reflexivity.
  - intros q Hq. vm_compute in Hq. by apply elem_of_nil in Hq.
  - intros fld _ _.
    assert (stored_keys work_file (configPath the_manager) "home" = ∅) as ->
      by (vm_compute; reflexivity).
    apply lookup_empty.
  - apply okta_account_reads_back.
Defined.

Lemma SaveIDPAccount_failure_writes_nothing_witness :
  (@SaveIDPAccount no_newline_URL the_manager "home" NewIDPAccount
     work_file).2 = work_file.
Proof.
  apply (@SaveIDPAccount_failure_writes_nothing no_newline_URL the_manager
           "home" NewIDPAccount work_file
           (errors_Wrap (errors_New "URL empty in idp account")
              "Account validation failed"));
    vm_compute; reflexivity.
Defined.

End persistence_examples.

(** * Further properties of validation *)

Section validation_order.
Context `{!NetURL}.

Local Ltac refute H :=
  lazymatch type of H with
  | (_ ∨ _) ∧ _ => by destruct H as [[?|?] ?]; congruence
  | _ ∧ _ => by destruct H as [? ?]; congruence
  | is_Some _ => by destruct H as [? ?]; congruence
  | _ => congruence
  end.

Local Ltac reported p Hparse :=
  exists p; split; [reflexivity|];
  split; [simpl; rewrite ?Hparse; by eauto|];
  let Hq := fresh "Hq" in
  intros []; simpl; rewrite ?Hparse; try lia; intros Hq; refute Hq.

(** The checks of [Validate] are made in a fixed order (the fields of the
    provider, the URL, its parse, the provider, the MFA, the profile) and the
    error returned is that of the first check that fails: it names a field at
    fault, and no field that an earlier check covers is at fault. *)
Theorem Validate_reports_first (ia : IDPAccount) :
  (∃ q, offends ia q) →
  ∃ p, Validate ia = Some (errors_New (message p))
       ∧ offends ia p
       ∧ ∀ q, offends ia q → (rank p ≤ rank q)%nat.
Proof.
  intros [q0 Hq0]. unfold Validate, validate_provider_fields.
  repeat case_bool_decide;
    try (destruct (url_Parse (URL ia)) as [e|] eqn:Hparse);
    repeat case_bool_decide;
    lazymatch goal with
    | |- ∃ p, None = _ ∧ _ =>
        exfalso; destruct q0; simpl in Hq0; rewrite ?Hparse in Hq0;
        refute Hq0
    | |- ∃ p, Some (errors_New ?m) = _ ∧ _ =>
        first [ reported AppID_empty Hparse
              | reported Subdomain_empty Hparse
              | reported ResourceID_empty Hparse
              | reported URL_empty Hparse
              | reported URL_unparsable Hparse
              | reported Provider_empty Hparse
              | reported MFA_empty Hparse
              | reported Profile_empty Hparse ]
    end.
Qed.

End validation_order.

Lemma Validate_reports_first_witness :
  @Validate no_newline_URL (onelogin_account "" "") =
    Some (errors_New "app ID empty in idp account").
Proof.
  destruct (@Validate_reports_first no_newline_URL (onelogin_account "" ""))
    as (p & Hp & Hoff & Hfirst).
  - exists Subdomain_empty. by vm_compute.
  - specialize (Hfirst AppID_empty ltac:(vm_compute; auto)).
    destruct p; try (simpl in Hfirst; lia); try exact Hp.
    vm_compute in Hoff. destruct Hoff; discriminate.
Defined.

(** * Further properties of the login prompt *)

Section login_answers.
Import prompter input.
Context {W : Type} `{!Prompter W}.

(** Outside "Browser" the prompts are made in the order user name, password,
    client identifier, client secret, each on the prompter state the one
    before it left.  The user name is replaced by the answer, whatever it is;
    a non-empty password answer is stored; for "OneLogin" a missing client
    identifier or secret becomes the answer; the URL and the provider of the
    login details are never written; and the prompter is left in the state
    after the last prompt made. *)
Theorem PromptForLoginDetails_stores_answers
    (ld : creds.LoginDetails) (provider : string) (w : W) :
  provider ≠ "Browser" →
  let run := PromptForLoginDetails ld provider w in
  let ld' := run.1.1 in
  let username := String "Username" (creds.Username ld) w in
  let password := Password "Password" username.2 in
  let clientID := Password "Client ID" password.2 in
  let w3 :=
    if bool_decide (creds.ClientID ld = "") then clientID.2 else password.2 in
  let clientSecret := Password "Client Secret" w3 in
  creds.Username ld' = username.1
  ∧ (password.1 ≠ "" → creds.Password ld' = password.1)
  ∧ creds.URL ld' = creds.URL ld
  ∧ creds.Provider ld' = creds.Provider ld
  ∧ (provider = "OneLogin" →
       (creds.ClientID ld = "" → creds.ClientID ld' = clientID.1)
       ∧ (creds.ClientSecret ld = "" →
            creds.ClientSecret ld' = clientSecret.1)
       ∧ run.2 = if bool_decide (creds.ClientSecret ld = "")
                 then clientSecret.2 else w3)
  ∧ (provider ≠ "OneLogin" → run.2 = password.2).
Proof.
  intros Hbrowser.
  unfold PromptForLoginDetails, mbind, M_bind, mret, M_ret.
  rewrite (bool_decide_eq_false_2 (provider = "Browser")) by done.
  destruct ld as [cid cs user pw url prov]. simpl.
  repeat (match goal with
    | |- context [bool_decide (?x ≠ "")] =>
        is_var x; destruct (decide (x = ""));
        [rewrite (bool_decide_eq_false_2 (x ≠ "")) by auto
        |rewrite (bool_decide_eq_true_2 (x ≠ "")) by assumption]
    | |- context [bool_decide ?P] =>
        destruct (decide P);
        [rewrite (bool_decide_eq_true_2 P) by assumption
        |rewrite (bool_decide_eq_false_2 P) by assumption]
    | |- context [String ?p ?d ?w] => destruct (String p d w) as [? ?]
    | |- context [Password ?p ?w] => destruct (Password p w) as [? ?]
    end; simpl in *; subst);
    intuition (try congruence).
Qed.

End login_answers.

Lemma PromptForLoginDetails_stores_answers_witness :
  creds.Username
    (@input.PromptForLoginDetails _ prompter.scripted stored_login "Okta"
       ["bob"; "s3cret"]).1.1 = "bob".
Proof.
  destruct (@PromptForLoginDetails_stores_answers _ prompter.scripted
              stored_login "Okta" ["bob"; "s3cret"]) as [H _];
    [discriminate|exact H].
Defined.
